(** * Cloe: multi-provider food analysis, aggregation and fallback

    A shallow embedding of
      - [packages/lit-ai/src/actions/food-analysis.js]   (the Lit Action:
        provider calls, fan-out, [aggregateResults]),
      - [packages/lit-ai/src/decentralized-ai-service.ts] (the service:
        [initialize], [analyzeFood], [disconnect], [analyzeFoodFallback]),
      - [apps/web/src/components/AddMeal.tsx]             ([analyzeImage],
        [removeFoodItem], [saveMeal]),
      - the store and the table service that [AddMeal] saves to.

    The program is written once, over the arithmetic of its numbers
    ([Arith]: literals, [+], [-], [*], [/], [Math.round]).  [binary64] is
    the arithmetic the program runs on, IEEE 754 doubles; [rational]
    reads the same operations over the rationals.  What holds for the
    program is proved for every arithmetic or for [binary64], and every
    example is run on doubles; the few statements about exact quantities
    say so by their type, [Qc].  Strings are byte strings; the case
    mapping and the white space of [toLowerCase] and [trim] are the ASCII
    ones. *)

From Stdlib Require Import QArith Qcanon Qround ZArith Ascii String List Floats.
From stdpp Require Import base list strings numbers pretty.

Local Open Scope string_scope.
Local Open Scope list_scope.

(** ** Numbers *)

Class Arith (number : Type) := mkArith {
  num : Z -> number;
  jsAdd : number -> number -> number;
  jsSub : number -> number -> number;
  jsMul : number -> number -> number;
  jsDiv : number -> number -> number;
  Math_round : number -> number
}.

#[global] Hint Mode Arith ! : typeclass_instances.

Declare Scope num_scope.
Delimit Scope num_scope with num.
Infix "+" := jsAdd : num_scope.
Infix "-" := jsSub : num_scope.
Infix "*" := jsMul : num_scope.
Infix "/" := jsDiv : num_scope.

(** *** Doubles *)

(** The double nearest to an integer below [2^63] in magnitude; the
    numeric literals of the program and of the examples. *)
Definition float_of_Z (z : Z) : float :=
  match z with
  | Z0 => PrimFloat.zero
  | Zpos _ => PrimFloat.of_uint63 (Uint63.of_Z z)
  | Zneg p => PrimFloat.opp (PrimFloat.of_uint63 (Uint63.of_Z (Zpos p)))
  end.

Definition two52 : float := float_of_Z 4503599627370496.
Definition one : float := float_of_Z 1.
Definition half : float := PrimFloat.div one (float_of_Z 2).

(** [Math.round] on a double: a value of magnitude [2^52] or more, a
    zero, an infinity and NaN are returned as they are; otherwise the
    nearest integer, a tie going towards plus infinity, a result zero
    keeping the sign of the argument.  [(a + 2^52) - 2^52] is the integer
    nearest to [a] for [0 <= a < 2^52], from which the floor. *)
Definition float_round (x : float) : float :=
  let a := PrimFloat.abs x in
  if PrimFloat.ltb a two52 then
    if PrimFloat.eqb x PrimFloat.zero then x
    else
      let nearest := PrimFloat.sub (PrimFloat.add a two52) two52 in
      let floor := if PrimFloat.ltb a nearest then PrimFloat.sub nearest one else nearest in
      let fraction := PrimFloat.sub a floor in
      if PrimFloat.ltb PrimFloat.zero x then
        if PrimFloat.leb half fraction then PrimFloat.add floor one else floor
      else
        PrimFloat.opp
          (if PrimFloat.ltb half fraction then PrimFloat.add floor one else floor)
  else x.

#[global] Instance binary64 : Arith float :=
  {| num := float_of_Z;
     jsAdd := PrimFloat.add;
     jsSub := PrimFloat.sub;
     jsMul := PrimFloat.mul;
     jsDiv := PrimFloat.div;
     Math_round := float_round |}.

(** *** Rationals *)

(** The nearest integer, a tie going up. *)
Definition Qc_round (x : Qc) : Qc :=
  Qc_of_Z (Qfloor (x + Q2Qc (1 # 2))%Qc).

#[global] Instance rational : Arith Qc :=
  {| num := Qc_of_Z;
     jsAdd := Qcplus;
     jsSub := Qcminus;
     jsMul := Qcmult;
     jsDiv := Qcdiv;
     Math_round := Qc_round |}.

(** ** Strings *)

Definition lowerChar (c : ascii) : ascii :=
  let n := nat_of_ascii c in
  if (65 <=? n)%nat && (n <=? 90)%nat then ascii_of_nat (n + 32) else c.

Fixpoint toLowerCase (s : string) : string :=
  match s with
  | EmptyString => EmptyString
  | String c s' => String (lowerChar c) (toLowerCase s')
  end.

Definition isWhiteSpace (c : ascii) : bool :=
  let n := nat_of_ascii c in
  ((9 <=? n)%nat && (n <=? 13)%nat) || (n =? 32)%nat.

Fixpoint trimStart (s : string) : string :=
  match s with
  | EmptyString => EmptyString
  | String c s' => if isWhiteSpace c then trimStart s' else s
  end.

Definition trimEnd (s : string) : string :=
  String.rev (trimStart (String.rev s)).

Definition trim (s : string) : string := trimEnd (trimStart s).

(** [content.replace(/```json|```/g, '')]: every fence is dropped,
    scanning from the left and trying the longer alternative first.
    [skip] counts the characters of a fence still to be dropped. *)
Fixpoint stripFencesFrom (skip : nat) (s : string) : string :=
  match s with
  | EmptyString => EmptyString
  | String c s' =>
      match skip with
      | S k => stripFencesFrom k s'
      | O =>
          if String.prefix "```json" s then stripFencesFrom 6 s'
          else if String.prefix "```" s then stripFencesFrom 2 s'
          else String c (stripFencesFrom 0 s')
      end
  end.

Definition stripFences (s : string) : string := stripFencesFrom 0 s.


(** ** Data model ([packages/types/src/index.ts]) *)

Module NutritionInfo.
Record t (number : Type) := mk {
  calories : number;
  carbs : number;
  fats : number;
  proteins : number
}.
Arguments mk {number}.
Arguments calories {number}.
Arguments carbs {number}.
Arguments fats {number}.
Arguments proteins {number}.
End NutritionInfo.

Module FoodItem.
Record t (number : Type) := mk {
  id : option string;
  name : string;
  quantity : number;
  unit : string;
  calories : number;
  carbs : number;
  fats : number;
  proteins : number
}.
Arguments mk {number}.
Arguments id {number}.
Arguments name {number}.
Arguments quantity {number}.
Arguments unit {number}.
Arguments calories {number}.
Arguments carbs {number}.
Arguments fats {number}.
Arguments proteins {number}.
End FoodItem.

Inductive Confidence := high | medium | low.

(** What one provider answers, once parsed.  The prompt asks for [items]
    and [totalNutrition], but the text is the provider's: [items = None]
    stands for a payload whose [items] is missing or is not an array,
    [totalNutrition = None] for a missing total, and [providersUsed] and
    [confidence] hold what the payload carries under those keys, if
    anything.  The items of a list are taken to be of the shape the
    prompt asks for, strings for name and unit and numbers for the rest,
    and a carried [providersUsed] or [confidence] to be a count or one
    of the three grades. *)
Module ProviderResult.
Record t (number : Type) := mk {
  items : option (list (FoodItem.t number));
  totalNutrition : option (NutritionInfo.t number);
  providersUsed : option nat;
  confidence : option Confidence
}.
Arguments mk {number}.
Arguments items {number}.
Arguments totalNutrition {number}.
Arguments providersUsed {number}.
Arguments confidence {number}.
End ProviderResult.

(** What [aggregateResults] returns: either a provider's own object or
    the object it builds. *)
Module Aggregated.
Record t (number : Type) := mk {
  items : option (list (FoodItem.t number));
  totalNutrition : option (NutritionInfo.t number);
  providersUsed : option nat;
  confidence : option Confidence
}.
Arguments mk {number}.
Arguments items {number}.
Arguments totalNutrition {number}.
Arguments providersUsed {number}.
Arguments confidence {number}.
End Aggregated.

Inductive MealType := breakfast | lunch | dinner | snack.

Module Meal.
Record t (number : Type) := mk {
  id : string;
  userId : string;
  timestamp : Z;
  type : MealType;
  items : list (FoodItem.t number);
  totalNutrition : NutritionInfo.t number;
  imageUrl : option string
}.
Arguments mk {number}.
Arguments id {number}.
Arguments userId {number}.
Arguments timestamp {number}.
Arguments type {number}.
Arguments items {number}.
Arguments totalNutrition {number}.
Arguments imageUrl {number}.
End Meal.

Module MacroTargets.
Record t (number : Type) := mk {
  carbs : number;
  fats : number;
  proteins : number
}.
Arguments mk {number}.
Arguments carbs {number}.
Arguments fats {number}.
Arguments proteins {number}.
End MacroTargets.

Module User.
Record t (number : Type) := mk {
  id : string;
  name : string;
  email : string;
  dailyCalorieTarget : number;
  dailyMacroTargets : MacroTargets.t number
}.
Arguments mk {number}.
Arguments id {number}.
Arguments name {number}.
Arguments email {number}.
Arguments dailyCalorieTarget {number}.
Arguments dailyMacroTargets {number}.
End User.

Module DailyStats.
Record t (number : Type) := mk {
  date : Z;
  totalCalories : number;
  totalMacros : NutritionInfo.t number;
  remainingCalories : number;
  remainingMacros : MacroTargets.t number;
  meals : list (Meal.t number)
}.
Arguments mk {number}.
Arguments date {number}.
Arguments totalCalories {number}.
Arguments totalMacros {number}.
Arguments remainingCalories {number}.
Arguments remainingMacros {number}.
Arguments meals {number}.
End DailyStats.

(** The zustand store; a [Date] is its time value in milliseconds. *)
Module AppState.
Record t (number : Type) := mk {
  user : option (User.t number);
  meals : list (Meal.t number);
  currentDate : Z
}.
Arguments mk {number}.
Arguments user {number}.
Arguments meals {number}.
Arguments currentDate {number}.
End AppState.

(** A row of the meals table, as [saveMeal] binds it and [getMeals]
    reads it. *)
Module MealRow.
Record t (number : Type) := mk {
  id : string;
  timestamp : Z;
  meal_type : MealType;
  total_calories : number;
  total_carbs : number;
  total_fats : number;
  total_proteins : number;
  items : string;
  image_url : string
}.
Arguments mk {number}.
Arguments id {number}.
Arguments timestamp {number}.
Arguments meal_type {number}.
Arguments total_calories {number}.
Arguments total_carbs {number}.
Arguments total_fats {number}.
Arguments total_proteins {number}.
Arguments items {number}.
Arguments image_url {number}.
End MealRow.

(** ** Effects: exceptions and a log of the calls made to the outside *)

Inductive Exc (A : Type) : Type :=
  | Throw (message : string)
  | Return (a : A).
Arguments Throw {A} message.
Arguments Return {A} a.

Record Request := mkRequest {
  url : string;
  bearer : string;
  title : string;
  model : string;
  imageUrl : string
}.

(** A response of the chat-completions endpoint: [content] is the outcome
    of [(await response.json()).choices[0].message.content]. *)
Record Response := mkResponse {
  ok : bool;
  status : Z;
  content : Exc string
}.

Record Wallet := mkWallet {
  address : string;
  publicKey : string
}.

Inductive Event :=
  | EvFetch (req : Request)
  | EvSign
  | EvConnect
  | EvDisconnect
  | EvAuthSig
  | EvExecuteJs.

Definition M (A : Type) : Type := (list Event * Exc A)%type.

Definition ret {A} (a : A) : M A := ([], Return a).
Definition throw {A} (message : string) : M A := ([], Throw message).
Definition emit (e : Event) : M () := ([e], Return ()).
Definition lift {A} (x : Exc A) : M A := ([], x).

Definition bind {A B} (m : M A) (f : A -> M B) : M B :=
  match m with
  | (log, Throw e) => (log, Throw e)
  | (log, Return a) => let '(log', r) := f a in (log ++ log', r)
  end.

Definition tryCatch {A} (m : M A) (handler : string -> M A) : M A :=
  match m with
  | (log, Throw e) => let '(log', r) := handler e in (log ++ log', r)
  | (log, Return a) => (log, Return a)
  end.

#[global] Instance M_ret : MRet M := @ret.
#[global] Instance M_bind : MBind M := fun A B f m => bind m f.

Definition logOf {A} (m : M A) : list Event := fst m.
Definition outcomeOf {A} (m : M A) : Exc A := snd m.

Inductive Settled (A : Type) : Type :=
  | fulfilled (value : A)
  | rejected (reason : string).
Arguments fulfilled {A} value.
Arguments rejected {A} reason.

(** [Promise.allSettled]: every promise is awaited, none aborts the rest. *)
Fixpoint Promise_allSettled {A} (promises : list (M A)) : M (list (Settled A)) :=
  match promises with
  | [] => ret []
  | (log, r) :: rest =>
      let '(log', settled) := Promise_allSettled rest in
      (log ++ log',
       match settled with
       | Return l =>
           Return (match r with
                   | Return v => fulfilled v
                   | Throw e => rejected e
                   end :: l)
       | Throw e => Throw e
       end)
  end.

Record Provider := mkProvider {
  providerModel : string;
  providerKey : string
}.

(** ** The program, over an arithmetic *)

Section Model.

Context {number : Type} `{!Arith number}.

(** ** The insertion-ordered [Map] of JavaScript, keyed by strings *)

Abbreviation ItemMap := (list (string * FoodItem.t number)).

Fixpoint Map_get (m : ItemMap) (key : string) : option (FoodItem.t number) :=
  match m with
  | [] => None
  | (k, v) :: m' => if String.eqb k key then Some v else Map_get m' key
  end.

Definition Map_has (m : ItemMap) (key : string) : bool :=
  match Map_get m key with Some _ => true | None => false end.

(** [set] keeps the position of a key that is present and appends a new one. *)
Fixpoint Map_set (m : ItemMap) (key : string) (v : FoodItem.t number) : ItemMap :=
  match m with
  | [] => [(key, v)]
  | (k, v') :: m' =>
      if String.eqb k key then (k, v) :: m' else (k, v') :: Map_set m' key v
  end.

Definition Map_values (m : ItemMap) : list (FoodItem.t number) := map snd m.

(** ** [aggregateResults] ([food-analysis.js], lines 110-158) *)

Definition itemKey (item : FoodItem.t number) : string :=
  trim (toLowerCase (FoodItem.name item)).

Definition average (a b : number) : number := ((a + b) / num 2)%num.

Definition roundWhole (x : number) : number := Math_round x.

Definition roundTenth (x : number) : number :=
  (Math_round (x * num 10) / num 10)%num.

(** The object literal of lines 126-134. *)
Definition mergeItem (existing item : FoodItem.t number) : FoodItem.t number :=
  {| FoodItem.id := None;
     FoodItem.name := FoodItem.name item;
     FoodItem.quantity :=
       roundWhole (average (FoodItem.quantity existing) (FoodItem.quantity item));
     FoodItem.unit := FoodItem.unit existing;
     FoodItem.calories :=
       roundWhole (average (FoodItem.calories existing) (FoodItem.calories item));
     FoodItem.carbs :=
       roundTenth (average (FoodItem.carbs existing) (FoodItem.carbs item));
     FoodItem.fats :=
       roundTenth (average (FoodItem.fats existing) (FoodItem.fats item));
     FoodItem.proteins :=
       roundTenth (average (FoodItem.proteins existing) (FoodItem.proteins item)) |}.

(** The body of [result.items.forEach(item => ...)]. *)
Definition addItem (itemMap : ItemMap) (item : FoodItem.t number) : ItemMap :=
  let key := itemKey item in
  if Map_has itemMap key then
    match Map_get itemMap key with
    | Some existing => Map_set itemMap key (mergeItem existing item)
    | None => itemMap
    end
  else Map_set itemMap key item.

(** The body of [results.forEach(result => ...)]. *)
Definition addResult (itemMap : ItemMap) (result : ProviderResult.t number) : ItemMap :=
  match ProviderResult.items result with
  | Some its => fold_left addItem its itemMap
  | None => itemMap
  end.

Definition zeroNutrition : NutritionInfo.t number :=
  NutritionInfo.mk (num 0) (num 0) (num 0) (num 0).

(** The reducer of lines 145-150. *)
Definition addNutrition (acc : NutritionInfo.t number) (item : FoodItem.t number)
  : NutritionInfo.t number :=
  {| NutritionInfo.calories := (NutritionInfo.calories acc + FoodItem.calories item)%num;
     NutritionInfo.carbs := (NutritionInfo.carbs acc + FoodItem.carbs item)%num;
     NutritionInfo.fats := (NutritionInfo.fats acc + FoodItem.fats item)%num;
     NutritionInfo.proteins := (NutritionInfo.proteins acc + FoodItem.proteins item)%num |}.

Definition mergeAll (results : list (ProviderResult.t number)) : ItemMap :=
  fold_left addResult results [].

Definition totalsOf (finalItems : list (FoodItem.t number)) : NutritionInfo.t number :=
  fold_left addNutrition finalItems zeroNutrition.

(** [results[0]], the provider's object with whatever it carries. *)
Definition passThrough (r : ProviderResult.t number) : Aggregated.t number :=
  {| Aggregated.items := ProviderResult.items r;
     Aggregated.totalNutrition := ProviderResult.totalNutrition r;
     Aggregated.providersUsed := ProviderResult.providersUsed r;
     Aggregated.confidence := ProviderResult.confidence r |}.

Definition aggregateResults (results : list (ProviderResult.t number)) : Aggregated.t number :=
  match results with
  | [r] => passThrough r
  | _ =>
      let finalItems := Map_values (mergeAll results) in
      {| Aggregated.items := Some finalItems;
         Aggregated.totalNutrition := Some (totalsOf finalItems);
         Aggregated.providersUsed := Some (length results);
         Aggregated.confidence :=
           Some (if (2 <=? length results)%nat then high else medium) |}
  end.


(** ** The environment *)

(** Everything the program asks of its environment. *)
Record World := mkWorld {
  fetch : Request -> Exc Response;
  JSON_parse : string -> Exc (option (ProviderResult.t number));
  signEcdsa : Aggregated.t number -> string -> Exc string;
  connectNode : Exc ();
  disconnectNode : Exc ();
  createSiweMessage : Wallet -> Exc string;
  executeJs : Exc ();
  Wallet_new : string -> Exc Wallet;
  Wallet_createRandom : Wallet;
  Date_now : Z;
  newId : nat -> string
}.


(** ** The Lit Action ([food-analysis.js]) *)

Inductive LitResult :=
  | LitSuccess (data : Aggregated.t number) (signature : option string)
               (timestamp : Z) (network version : string)
  | LitFailure (error : string) (timestamp : Z).

Section Program.

Variable w : World.

Definition chatRequest (xTitle model apiKey imageBase64 : string) : Request :=
  {| url := "https://openrouter.ai/api/v1/chat/completions";
     bearer := apiKey;
     title := xTitle;
     model := model;
     imageUrl := "data:image/jpeg;base64," ++ imageBase64 |}.

Definition doFetch (req : Request) : M Response :=
  emit (EvFetch req);; lift (fetch w req).

(** [callOpenRouter] (lines 41-87): [None] is the [null] of the handler. *)
Definition callOpenRouter (imageBase64 model apiKey : string)
  : M (option (ProviderResult.t number)) :=
  tryCatch
    (response ← doFetch (chatRequest "Cloe - Decentralized AI Health Assistant"
                           model apiKey imageBase64);
     if negb (ok response)
     then throw ("HTTP error! status: " ++ pretty (status response))
     else
       content ← lift (content response);
       let cleanContent := trim (stripFences content) in
       lift (JSON_parse w cleanContent))
    (fun error => ret None).

Definition aiProviders (openrouter : string) : list Provider :=
  [ mkProvider "google/gemini-2.0-flash-exp" openrouter;
    mkProvider "anthropic/claude-3.5-sonnet" openrouter;
    mkProvider "openai/gpt-4o" openrouter ].

(** The provider list of the copy of the action that
    [LitAIClient.getFoodAnalysisCode] returns. *)
Definition inlineProviders (openrouter : string) : list Provider :=
  [ mkProvider "google/gemini-2.5-pro" openrouter;
    mkProvider "anthropic/claude-3.5-sonnet" openrouter ].

(** Lines 96-98. *)
Definition fanOut (imageBase64 : string) (providers : list Provider)
  : M (list (Settled (option (ProviderResult.t number)))) :=
  Promise_allSettled
    (map (fun provider =>
            callOpenRouter imageBase64 (providerModel provider) (providerKey provider))
         providers).

Definition isValid (result : Settled (option (ProviderResult.t number))) : bool :=
  match result with
  | fulfilled (Some _) => true
  | _ => false
  end.

(** Lines 101-103: [filter] then [map(result => result.value)]. *)
Definition validResults (results : list (Settled (option (ProviderResult.t number))))
  : list (ProviderResult.t number) :=
  omap (fun result =>
          match result with
          | fulfilled (Some v) => Some v
          | _ => None
          end)
       (List.filter isValid results).

(** The action, over the provider list [providers]; [signing] tells
    whether the result is signed (the file does, the inlined copy does
    not). *)
Definition litAction (providers : list Provider) (signing : bool)
    (imageBase64 publicKey : string) : M LitResult :=
  tryCatch
    (results ← fanOut imageBase64 providers;
     let validResults := validResults results in
     if (length validResults =? 0)%nat
     then throw "All AI providers failed"
     else
       let aggregatedResult := aggregateResults validResults in
       if signing then
         emit EvSign;;
         signature ← lift (signEcdsa w aggregatedResult publicKey);
         ret (LitSuccess aggregatedResult (Some signature) (Date_now w)
                "lit-protocol" "1.0.0")
       else
         ret (LitSuccess aggregatedResult None (Date_now w)
                "lit-protocol" "1.0.0"))
    (fun error => ret (LitFailure error (Date_now w))).

Definition foodAnalysisAction (imageBase64 openrouter publicKey : string)
  : M LitResult :=
  litAction (aiProviders openrouter) true imageBase64 publicKey.

Definition inlineFoodAnalysisAction (imageBase64 openrouter publicKey : string)
  : M LitResult :=
  litAction (inlineProviders openrouter) false imageBase64 publicKey.

End Program.

(** ** The service ([decentralized-ai-service.ts]) and its Lit client *)

Inductive LitNode :=
  | NoNode
  | Node (ready : bool).

Record Service := mkService {
  litNodeClient : LitNode;
  wallet : option Wallet
}.

Record DecentralizedAnalysisResult := mkResult {
  items : list (FoodItem.t number);
  totalNutrition : option (NutritionInfo.t number);
  providersUsed : nat;
  confidence : Confidence;
  timestamp : Z;
  network : string;
  signature : option string
}.

(** The state of [AddMeal] that [analyzeImage] writes. *)
Record AnalysisMetadata := mkMetadata {
  metaProvidersUsed : option nat;
  metaConfidence : option Confidence;
  metaNetwork : option string
}.

Record AddMealState := mkAddMeal {
  isCapturing : bool;
  isAnalyzing : bool;
  foodItems : list (FoodItem.t number);
  error : option string;
  analysisMetadata : AnalysisMetadata
}.

(** [s || d] on strings and on counts. *)
Definition orString (s d : string) : string :=
  match s with EmptyString => d | _ => s end.

Definition orCount (n : option nat) (d : nat) : nat :=
  match n with Some (S k) => S k | _ => d end.

Definition orConfidence (c : option Confidence) (d : Confidence) : Confidence :=
  match c with Some c' => c' | None => d end.

Section Service.

Variable w : World.

(** [new DecentralizedAIService()]. *)
Definition newService : Service := {| litNodeClient := NoNode; wallet := None |}.

Definition nodeReady (n : LitNode) : bool :=
  match n with Node true => true | _ => false end.

Definition LitAIClient_connect (n : LitNode) : LitNode * M () :=
  if nodeReady n then (n, ret ())
  else
    match connectNode w with
    | Throw e => (Node false, ([EvConnect], Throw e))
    | Return _ => (Node true, ([EvConnect], Return ()))
    end.

Definition LitAIClient_disconnect (n : LitNode) : LitNode * M () :=
  match n with
  | NoNode => (NoNode, ret ())
  | Node _ =>
      match disconnectNode w with
      | Throw e => (n, ([EvDisconnect], Throw e))
      | Return _ => (NoNode, ([EvDisconnect], Return ()))
      end
  end.

Definition LitAIClient_createAuthSig (n : LitNode) (wal : Wallet) : M (option string) :=
  match n with
  | NoNode => ret None
  | Node _ =>
      emit EvAuthSig;;
      authSig ← lift (createSiweMessage w wal);
      ret (Some authSig)
  end.

(** [executeJs] runs the code of [getFoodAnalysisCode], the inlined copy
    of the action. *)
Definition LitAIClient_analyzeFoodImage (n : LitNode)
    (imageBase64 openrouter : string) (pkpPublicKey : string) : M LitResult :=
  if negb (nodeReady n) then throw "Lit client not connected"
  else
    tryCatch
      (emit EvExecuteJs;;
       lift (executeJs w);;
       inlineFoodAnalysisAction w imageBase64 openrouter (orString pkpPublicKey "0x0"))
      (fun error => throw ("Failed to analyze food image: " ++ error)).

(** [initialize(privateKey?)]: the new state and the outcome. *)
Definition initialize (s : Service) (privateKey : option string) : Service * M () :=
  let '(n, connected) := LitAIClient_connect (litNodeClient s) in
  match connected with
  | (log, Throw e) => ({| litNodeClient := n; wallet := wallet s |}, (log, Throw e))
  | (log, Return _) =>
      match privateKey with
      | Some (String c k) =>
          match Wallet_new w (String c k) with
          | Throw e => ({| litNodeClient := n; wallet := wallet s |}, (log, Throw e))
          | Return wal => ({| litNodeClient := n; wallet := Some wal |}, (log, Return ()))
          end
      | _ =>
          ({| litNodeClient := n; wallet := Some (Wallet_createRandom w) |},
           (log, Return ()))
      end
  end.

(** [result.data.items.map(item => ({ id: ..., ... }))]. *)
Definition withIds (its : list (FoodItem.t number)) : list (FoodItem.t number) :=
  imap (fun i item =>
          {| FoodItem.id := Some (newId w i);
             FoodItem.name := FoodItem.name item;
             FoodItem.quantity := FoodItem.quantity item;
             FoodItem.unit := FoodItem.unit item;
             FoodItem.calories := FoodItem.calories item;
             FoodItem.carbs := FoodItem.carbs item;
             FoodItem.fats := FoodItem.fats item;
             FoodItem.proteins := FoodItem.proteins item |})
       its.

Definition notInitialized : string :=
  "Service not initialized. Call initialize() first.".

Definition noItemsTypeError : string :=
  "Cannot read properties of undefined (reading 'map')".

Definition analyzeFood (s : Service) (imageBase64 openRouterApiKey : string)
  : M DecentralizedAnalysisResult :=
  match wallet s with
  | None => throw notInitialized
  | Some wal =>
      tryCatch
        (authSig ← LitAIClient_createAuthSig (litNodeClient s) wal;
         result ← LitAIClient_analyzeFoodImage (litNodeClient s)
                    imageBase64 openRouterApiKey (publicKey wal);
         match result with
         | LitFailure error _ => throw (orString error "Analysis failed")
         | LitSuccess data signature timestamp network _ =>
             match Aggregated.items data with
             | None => throw noItemsTypeError
             | Some its =>
                 ret {| items := withIds its;
                        totalNutrition := Aggregated.totalNutrition data;
                        providersUsed := orCount (Aggregated.providersUsed data) 1;
                        confidence := orConfidence (Aggregated.confidence data) medium;
                        timestamp := timestamp;
                        network := network;
                        signature := signature |}
             end
         end)
        (fun error => throw ("Failed to analyze food: " ++ error))
  end.

Definition disconnect (s : Service) : Service * M () :=
  let '(n, r) := LitAIClient_disconnect (litNodeClient s) in
  match r with
  | (log, Throw e) => ({| litNodeClient := n; wallet := wallet s |}, (log, Throw e))
  | (log, Return _) => ({| litNodeClient := n; wallet := None |}, (log, Return ()))
  end.

Definition getWalletAddress (s : Service) : option string :=
  match wallet s with
  | Some wal => match address wal with EmptyString => None | a => Some a end
  | None => None
  end.

Definition fallbackModel : string := "google/gemini-2.5-pro".

Definition fallbackRequest (imageBase64 openRouterApiKey : string) : Request :=
  chatRequest "Cloe - AI Health Assistant (Fallback)" fallbackModel
    openRouterApiKey imageBase64.

Definition analyzeFoodFallback (s : Service) (imageBase64 openRouterApiKey : string)
  : M DecentralizedAnalysisResult :=
  tryCatch
    (response ← doFetch w (fallbackRequest imageBase64 openRouterApiKey);
     if negb (ok response)
     then throw ("HTTP error! status: " ++ pretty (status response))
     else
       content ← lift (content response);
       parsed ← lift (JSON_parse w (trim (stripFences content)));
       match parsed with
       | None => throw "Cannot read properties of null (reading 'items')"
       | Some result =>
           match ProviderResult.items result with
           | None => throw noItemsTypeError
           | Some its =>
               ret {| items := withIds its;
                      totalNutrition := ProviderResult.totalNutrition result;
                      providersUsed := 1;
                      confidence := low;
                      timestamp := Date_now w;
                      network := "centralized-fallback";
                      signature := None |}
           end
       end)
    (fun error => throw ("Fallback analysis failed: " ++ error)).

(** ** [analyzeImage] ([AddMeal.tsx], lines 73-116) *)

(** The [try] block: the result and the metadata to be stored. *)
Definition analyzeImageTry (aiService : option Service) (apiKey : option string)
    (base64 : string) : M (DecentralizedAnalysisResult * AnalysisMetadata) :=
  match apiKey with
  | Some (String c k) =>
      let apiKey := String c k in
      match aiService with
      | Some service =>
          tryCatch
            (result ← analyzeFood service base64 apiKey;
             ret (result,
                  {| metaProvidersUsed := Some (providersUsed result);
                     metaConfidence := Some (confidence result);
                     metaNetwork := Some (network result) |}))
            (fun litError =>
               result ← analyzeFoodFallback service base64 apiKey;
               ret (result,
                    {| metaProvidersUsed := Some 1;
                       metaConfidence := Some low;
                       metaNetwork := Some "centralized-fallback" |}))
      | None => throw "AI service not available"
      end
  | _ => throw "OpenRouter API key not found"
  end.

Definition analyzeImage (st : AddMealState) (aiService : option Service)
    (apiKey : option string) (base64 : string) : AddMealState * list Event :=
  match analyzeImageTry aiService apiKey base64 with
  | (log, Return (result, metadata)) =>
      ({| isCapturing := false;
          isAnalyzing := false;
          foodItems := items result;
          error := None;
          analysisMetadata := metadata |}, log)
  | (log, Throw _) =>
      ({| isCapturing := false;
          isAnalyzing := false;
          foodItems := foodItems st;
          error := Some "Failed to analyze image. Please try again.";
          analysisMetadata := analysisMetadata st |}, log)
  end.

End Service.

(** ** Meals, the local store and the table ([types], [useStore],
       [tableland/service.ts], [AddMeal.tsx]) *)

Definition setUser (state : AppState.t number) (user : option (User.t number))
  : AppState.t number :=
  {| AppState.user := user;
     AppState.meals := AppState.meals state;
     AppState.currentDate := AppState.currentDate state |}.

Definition addMeal (state : AppState.t number) (meal : Meal.t number) : AppState.t number :=
  {| AppState.user := AppState.user state;
     AppState.meals := AppState.meals state ++ [meal];
     AppState.currentDate := AppState.currentDate state |}.

Definition setMeals (state : AppState.t number) (meals : list (Meal.t number))
  : AppState.t number :=
  {| AppState.user := AppState.user state;
     AppState.meals := meals;
     AppState.currentDate := AppState.currentDate state |}.

Section Store.

(** [d.setHours(0, 0, 0, 0); d.getTime()]: local midnight of the day of
    a time value. *)
Variable startOfDay : Z -> Z.

Definition sumMeals (f : NutritionInfo.t number -> number) (meals : list (Meal.t number))
  : number :=
  fold_left (fun sum meal => (sum + f (Meal.totalNutrition meal))%num) meals (num 0).

Definition todayMeals (now : Z) (meals : list (Meal.t number)) : list (Meal.t number) :=
  List.filter (fun meal => (startOfDay (Meal.timestamp meal) =? startOfDay now)%Z) meals.

Definition getDailyStats (state : AppState.t number) (now : Z) : option (DailyStats.t number) :=
  match AppState.user state with
  | None => None
  | Some user =>
      let todayMeals := todayMeals now (AppState.meals state) in
      let totalCalories := sumMeals NutritionInfo.calories todayMeals in
      let totalCarbs := sumMeals NutritionInfo.carbs todayMeals in
      let totalFats := sumMeals NutritionInfo.fats todayMeals in
      let totalProteins := sumMeals NutritionInfo.proteins todayMeals in
      Some
        {| DailyStats.date := startOfDay now;
           DailyStats.totalCalories := totalCalories;
           DailyStats.totalMacros :=
             NutritionInfo.mk totalCalories totalCarbs totalFats totalProteins;
           DailyStats.remainingCalories :=
             (User.dailyCalorieTarget user - totalCalories)%num;
           DailyStats.remainingMacros :=
             {| MacroTargets.carbs :=
                  (MacroTargets.carbs (User.dailyMacroTargets user) - totalCarbs)%num;
                MacroTargets.fats :=
                  (MacroTargets.fats (User.dailyMacroTargets user) - totalFats)%num;
                MacroTargets.proteins :=
                  (MacroTargets.proteins (User.dailyMacroTargets user) - totalProteins)%num |};
           DailyStats.meals := todayMeals |}
  end.

End Store.

(** What the table service asks of its environment: the JSON codec for
    the item list and the run of the INSERT with the wait for its
    transaction. *)
Record Chain := mkChain {
  JSON_stringify : list (FoodItem.t number) -> string;
  JSON_parseItems : string -> Exc (list (FoodItem.t number));
  runInsert : string -> (MealRow.t number) -> Exc ()
}.

Record TablelandService := mkTableland {
  db : bool;
  signer : option string;
  userTableName : option string;
  profileTableName : option string
}.

(** [new TablelandService()] and [initialize(signer)]. *)
Definition newTableland : TablelandService :=
  {| db := false; signer := None; userTableName := None; profileTableName := None |}.

Definition Tableland_initialize (t : TablelandService) (signer : string)
  : TablelandService :=
  {| db := true;
     signer := Some signer;
     userTableName := userTableName t;
     profileTableName := profileTableName t |}.

(** The values bound to the INSERT of [saveMeal]. *)
Definition mealToRow (chain : Chain) (meal : Meal.t number) : MealRow.t number :=
  {| MealRow.id := Meal.id meal;
     MealRow.timestamp := (Meal.timestamp meal / 1000)%Z;
     MealRow.meal_type := Meal.type meal;
     MealRow.total_calories := NutritionInfo.calories (Meal.totalNutrition meal);
     MealRow.total_carbs := NutritionInfo.carbs (Meal.totalNutrition meal);
     MealRow.total_fats := NutritionInfo.fats (Meal.totalNutrition meal);
     MealRow.total_proteins := NutritionInfo.proteins (Meal.totalNutrition meal);
     MealRow.items := JSON_stringify chain (Meal.items meal);
     MealRow.image_url :=
       match Meal.imageUrl meal with Some u => u | None => "" end |}.

Definition tableNotInitialized : string := "Database or table not initialized".

Definition Tableland_saveMeal (chain : Chain) (t : TablelandService) (meal : Meal.t number)
  : Exc () :=
  if negb (db t) then Throw tableNotInitialized
  else
    match userTableName t with
    | Some (String c k) => runInsert chain (String c k) (mealToRow chain meal)
    | _ => Throw tableNotInitialized
    end.

(** The object [getMeals] builds from a row. *)
Definition rowToMeal (chain : Chain) (row : MealRow.t number) : Exc (Meal.t number) :=
  match JSON_parseItems chain (MealRow.items row) with
  | Throw e => Throw e
  | Return its =>
      Return
        {| Meal.id := MealRow.id row;
           Meal.userId := "";
           Meal.timestamp := (MealRow.timestamp row * 1000)%Z;
           Meal.type := MealRow.meal_type row;
           Meal.items := its;
           Meal.totalNutrition :=
             NutritionInfo.mk (MealRow.total_calories row) (MealRow.total_carbs row)
               (MealRow.total_fats row) (MealRow.total_proteins row);
           Meal.imageUrl :=
             match MealRow.image_url row with
             | EmptyString => None
             | u => Some u
             end |}
  end.

(** [AddMeal.tsx]: [removeFoodItem], [getMealType], [saveMeal]. *)
Definition removeFoodItem (foodItems : list (FoodItem.t number)) (index : nat)
  : list (FoodItem.t number) :=
  map snd
    (List.filter (fun p => negb (fst p =? index)%nat)
       (imap (fun i item => (i, item)) foodItems)).

Definition getMealType (hour : Z) : MealType :=
  if (hour <? 10)%Z then breakfast
  else if (hour <? 14)%Z then lunch
  else if (hour <? 18)%Z then dinner
  else snack.

(** Where [saveMeal] leaves things: the error shown, the local store,
    whether it navigated home, and the row it had the table insert. *)
Record SaveOutcome := mkSaveOutcome {
  saveError : option string;
  saveStore : AppState.t number;
  navigated : bool;
  insertAttempt : option (string * (MealRow.t number))
}.

Definition builtMeal (now hour : Z) (foodItems : list (FoodItem.t number)) : Meal.t number :=
  {| Meal.id := pretty now;
     Meal.userId := "1";
     Meal.timestamp := now;
     Meal.type := getMealType hour;
     Meal.items := foodItems;
     Meal.totalNutrition := fold_left addNutrition foodItems zeroNutrition;
     Meal.imageUrl := None |}.

Definition saveMeal (chain : Chain) (now hour : Z) (foodItems : list (FoodItem.t number))
    (isConnected : bool) (tablelandService : option TablelandService)
    (userTable : option string) (store : AppState.t number) : SaveOutcome :=
  let meal := builtMeal now hour foodItems in
  let locally :=
    {| saveError := None; saveStore := addMeal store meal;
       navigated := true; insertAttempt := None |} in
  if isConnected then
    match tablelandService, userTable with
    | Some service, Some (String c k) =>
        let attempt :=
          if db service then
            match userTableName service with
            | Some (String c' k') => Some (String c' k', mealToRow chain meal)
            | _ => None
            end
          else None in
        match Tableland_saveMeal chain service meal with
        | Return _ =>
            {| saveError := None; saveStore := store;
               navigated := true; insertAttempt := attempt |}
        | Throw _ =>
            {| saveError := Some "Failed to save meal. Please try again.";
               saveStore := store; navigated := false; insertAttempt := attempt |}
        end
    | _, _ => locally
    end
  else locally.


(** * Vocabulary of the statements *)

(** The items of all results, in the order [forEach] visits them. *)
Definition allItems (results : list (ProviderResult.t number)) : list (FoodItem.t number) :=
  flat_map (fun r => default [] (ProviderResult.items r)) results.

(** The items reported under the key [k], in arrival order. *)
Definition reportsOf (k : string) (l : list (FoodItem.t number)) : list (FoodItem.t number) :=
  filter (fun x => itemKey x = k) l.

(** One arrival under a key: the first is stored, a later one is merged
    into what is stored. *)
Definition mergeStep (acc : option (FoodItem.t number)) (x : FoodItem.t number)
  : option (FoodItem.t number) :=
  Some (match acc with Some existing => mergeItem existing x | None => x end).

(** The sum of a measure over a list of items, taken from the left,
    starting from 0. *)
Definition sumOf (f : FoodItem.t number -> number) (l : list (FoodItem.t number)) : number :=
  fold_left (fun acc x => (acc + f x)%num) l (num 0).

(** The merge rule in the words of its description: whole-number rounding
    of the mean for quantity and calories, one-decimal rounding for carbs,
    fats and proteins, the unit of the existing item. *)
Definition pairwiseAverage (existing incoming merged : FoodItem.t number) : Prop :=
  FoodItem.quantity merged =
    Math_round ((FoodItem.quantity existing + FoodItem.quantity incoming) / num 2)%num /\
  FoodItem.calories merged =
    Math_round ((FoodItem.calories existing + FoodItem.calories incoming) / num 2)%num /\
  FoodItem.carbs merged =
    (Math_round ((FoodItem.carbs existing + FoodItem.carbs incoming) / num 2 * num 10)
     / num 10)%num /\
  FoodItem.fats merged =
    (Math_round ((FoodItem.fats existing + FoodItem.fats incoming) / num 2 * num 10)
     / num 10)%num /\
  FoodItem.proteins merged =
    (Math_round ((FoodItem.proteins existing + FoodItem.proteins incoming) / num 2 * num 10)
     / num 10)%num /\
  FoodItem.unit merged = FoodItem.unit existing.

(** The four measures of an item, and a map read as its keys with their
    measures. *)
Definition nutritionOf (item : FoodItem.t number) : NutritionInfo.t number :=
  NutritionInfo.mk (FoodItem.calories item) (FoodItem.carbs item)
    (FoodItem.fats item) (FoodItem.proteins item).

Definition measuresOf (m : ItemMap) : list (string * (NutritionInfo.t number)) :=
  map (fun kv => (fst kv, nutritionOf (snd kv))) m.

Definition addMeasures (acc n : NutritionInfo.t number) : NutritionInfo.t number :=
  {| NutritionInfo.calories := (NutritionInfo.calories acc + NutritionInfo.calories n)%num;
     NutritionInfo.carbs := (NutritionInfo.carbs acc + NutritionInfo.carbs n)%num;
     NutritionInfo.fats := (NutritionInfo.fats acc + NutritionInfo.fats n)%num;
     NutritionInfo.proteins := (NutritionInfo.proteins acc + NutritionInfo.proteins n)%num |}.

(** What one provider call amounts to: the parsed payload when the
    request is answered with a 2xx status, readable content and parseable
    text, and nothing otherwise. *)
Definition providerRequest (imageBase64 : string) (p : Provider) : Request :=
  chatRequest "Cloe - Decentralized AI Health Assistant"
    (providerModel p) (providerKey p) imageBase64.

Definition providerOutcome (w : World) (imageBase64 : string) (p : Provider)
  : option (ProviderResult.t number) :=
  match fetch w (providerRequest imageBase64 p) with
  | Return response =>
      if ok response then
        match content response with
        | Return text =>
            match JSON_parse w (trim (stripFences text)) with
            | Return parsed => parsed
            | Throw _ => None
            end
        | Throw _ => None
        end
      else None
  | Throw _ => None
  end.

(** The payloads of the providers that succeeded, in provider order. *)
Definition successes (w : World) (imageBase64 : string) (providers : list Provider)
  : list (ProviderResult.t number) :=
  omap (providerOutcome w imageBase64) providers.


(** The requests of the fallback path carry their own title. *)
Definition isFallbackCall (e : Event) : bool :=
  match e with
  | EvFetch req => String.eqb (title req) "Cloe - AI Health Assistant (Fallback)"
  | _ => false
  end.

(** The public operations of the service, and a service driven through a
    sequence of them. *)
Inductive Op :=
  | OpInitialize (privateKey : option string)
  | OpAnalyzeFood (imageBase64 openRouterApiKey : string)
  | OpAnalyzeFoodFallback (imageBase64 openRouterApiKey : string)
  | OpGetWalletAddress
  | OpDisconnect.

Definition perform (w : World) (s : Service) (op : Op) : Service :=
  match op with
  | OpInitialize privateKey => fst (initialize w s privateKey)
  | OpDisconnect => fst (disconnect w s)
  | OpAnalyzeFood _ _ | OpAnalyzeFoodFallback _ _ | OpGetWalletAddress => s
  end.

Definition performAll (w : World) (s : Service) (ops : list Op) : Service :=
  fold_left (perform w) ops s.

Definition isDisconnect (op : Op) : bool :=
  match op with OpDisconnect => true | _ => false end.

Definition isInitialize (op : Op) : bool :=
  match op with OpInitialize _ => true | _ => false end.

(** The distinct keys of a sequence of keys, each at its first occurrence;
    [seen] holds the keys met so far. *)
Fixpoint firstOccurrences (seen keys : list string) : list string :=
  match keys with
  | [] => []
  | k :: rest =>
      if decide (k ∈ seen) then firstOccurrences seen rest
      else k :: firstOccurrences (seen ++ [k]) rest
  end.

Definition hasItems (r : ProviderResult.t number) : bool :=
  match ProviderResult.items r with Some _ => true | None => false end.

(** A string of white space only. *)
Fixpoint allWhite (s : string) : bool :=
  match s with
  | EmptyString => true
  | String c s' => isWhiteSpace c && allWhite s'
  end.

(** Does a code fence start somewhere in [s]? *)
Fixpoint containsFence (s : string) : bool :=
  match s with
  | EmptyString => false
  | String _ s' => String.prefix "```" s || containsFence s'
  end.

Definition isFetch (e : Event) : bool :=
  match e with EvFetch _ => true | _ => false end.


End Model.

(** ** Examples, on doubles *)

(** The merge example: provider A reports "Rice", provider B "rice". *)
Definition riceA : FoodItem.t float :=
  FoodItem.mk None "Rice" (num 150) "g" (num 200) (num 45) (num 1) (num 4).
Definition riceB : FoodItem.t float :=
  FoodItem.mk None "rice" (num 170) "grams" (num 220) (num 46) (num 2) (num 5).
Definition resultA : ProviderResult.t float := ProviderResult.mk (Some [riceA]) None None None.
Definition resultB : ProviderResult.t float := ProviderResult.mk (Some [riceB]) None None None.

(** Three providers report the same item with 100, 200 and 400 calories. *)
Definition bowl (calories : Z) : FoodItem.t float :=
  FoodItem.mk None "Bowl" (num 1) "serving" (num calories) (num 0) (num 0) (num 0).
Definition report (calories : Z) : ProviderResult.t float :=
  ProviderResult.mk (Some [bowl calories]) None None None.
Definition arrival1 : list (ProviderResult.t float) := [report 100; report 200; report 400].
Definition arrival2 : list (ProviderResult.t float) := [report 400; report 200; report 100].

(** A world in which every provider answers with an empty item list. *)
Definition emptyPayload : ProviderResult.t float :=
  ProviderResult.mk (Some []) (Some zeroNutrition) None None.

Definition someWallet : Wallet := mkWallet "0xA11CE" "0x04A11CE".

Definition emptyWorld : World (number := float) :=
  {| fetch := fun _ => Return (mkResponse true 200 (Return "{ }"));
     JSON_parse := fun _ => Return (Some emptyPayload);
     signEcdsa := fun _ _ => Return "signed";
     connectNode := Return ();
     disconnectNode := Return ();
     createSiweMessage := fun _ => Return "siwe";
     executeJs := Return ();
     Wallet_new := fun _ => Return someWallet;
     Wallet_createRandom := someWallet;
     Date_now := 0;
     newId := fun _ => "id" |}.

Definition gemini : Provider := mkProvider "google/gemini-2.5-pro" "key".

(** A world in which, of the providers of either copy of the action, one
    is unreachable or answers text that does not parse, and one answers
    well; and a world in which only the fallback request is answered. *)
Definition partialWorld : World (number := float) :=
  {| fetch := fun req =>
       if String.eqb (model req) "google/gemini-2.0-flash-exp"
       then Throw "network down"
       else if String.eqb (model req) "anthropic/claude-3.5-sonnet"
       then Return (mkResponse true 200 (Return "I see rice."))
       else Return (mkResponse true 200 (Return "```json rice ```"));
     JSON_parse := fun text =>
       if String.eqb text "rice" then Return (Some resultA)
       else Throw "Unexpected token";
     signEcdsa := fun _ _ => Return "signed";
     connectNode := Return ();
     disconnectNode := Return ();
     createSiweMessage := fun _ => Return "siwe";
     executeJs := Return ();
     Wallet_new := fun _ => Return someWallet;
     Wallet_createRandom := someWallet;
     Date_now := 0;
     newId := fun _ => "id" |}.

Definition fallbackOnlyWorld : World (number := float) :=
  {| fetch := fun req =>
       if String.eqb (title req) "Cloe - AI Health Assistant (Fallback)"
       then Return (mkResponse true 200 (Return "rice"))
       else Return (mkResponse false 503 (Throw "no body"));
     JSON_parse := fun text =>
       if String.eqb text "rice" then Return (Some resultA)
       else Throw "Unexpected token";
     signEcdsa := fun _ _ => Return "signed";
     connectNode := Return ();
     disconnectNode := Return ();
     createSiweMessage := fun _ => Return "siwe";
     executeJs := Return ();
     Wallet_new := fun _ => Return someWallet;
     Wallet_createRandom := someWallet;
     Date_now := 0;
     newId := fun _ => "id" |}.

Definition readyService : Service := mkService (Node true) (Some someWallet).

(** The store as [create] sets it up, the day of a time value in UTC,
    and a table environment that accepts every insert or none. *)
Definition guestUser : User.t float :=
  {| User.id := "local-user";
     User.name := "Guest User";
     User.email := "guest@example.com";
     User.dailyCalorieTarget := num 2000;
     User.dailyMacroTargets := MacroTargets.mk (num 250) (num 65) (num 150) |}.

Definition initialStore (now : Z) : AppState.t float :=
  {| AppState.user := Some guestUser; AppState.meals := []; AppState.currentDate := now |}.

Definition utcDay (t : Z) : Z := (t / 86400000 * 86400000)%Z.

Definition acceptingChain : Chain (number := float) :=
  {| JSON_stringify := fun _ => "[]";
     JSON_parseItems := fun _ => Return [];
     runInsert := fun _ _ => Return () |}.

Definition refusingChain : Chain (number := float) :=
  {| JSON_stringify := fun _ => "[]";
     JSON_parseItems := fun _ => Return [];
     runInsert := fun _ _ => Throw "transaction reverted" |}.

Definition readyTableland : TablelandService :=
  {| db := true; signer := Some "signer";
     userTableName := Some "cloe_meals_a11ce0_84532_7";
     profileTableName := None |}.

Definition lunchOf (now : Z) : Meal.t float := builtMeal now 12 [riceA].

(** A world whose signer refuses, and one whose Lit node cannot be
    reached. *)
Definition unsignedWorld : World (number := float) :=
  {| fetch := fetch partialWorld;
     JSON_parse := JSON_parse partialWorld;
     signEcdsa := fun _ _ => Throw "no key share";
     connectNode := Return ();
     disconnectNode := Return ();
     createSiweMessage := fun _ => Return "siwe";
     executeJs := Return ();
     Wallet_new := fun _ => Return someWallet;
     Wallet_createRandom := someWallet;
     Date_now := 0;
     newId := fun _ => "id" |}.

Definition offlineWorld : World (number := float) :=
  {| fetch := fun _ => Throw "network down";
     JSON_parse := fun _ => Throw "Unexpected token";
     signEcdsa := fun _ _ => Throw "no key share";
     connectNode := Throw "handshake failed";
     disconnectNode := Return ();
     createSiweMessage := fun _ => Return "siwe";
     executeJs := Return ();
     Wallet_new := fun _ => Return someWallet;
     Wallet_createRandom := someWallet;
     Date_now := 0;
     newId := fun _ => "id" |}.

Definition blankState : AddMealState (number := float) :=
  mkAddMeal true false [] None (mkMetadata None None None).


(** Two reports of one dish whose carbs are 0.1 and 4.6. *)
Definition porridgeA : FoodItem.t float :=
  FoodItem.mk None "Porridge" (num 100) "g" (num 70)
    (num 1 / num 10)%num (num 1) (num 2).
Definition porridgeB : FoodItem.t float :=
  FoodItem.mk None "porridge" (num 120) "g" (num 75)
    (num 46 / num 10)%num (num 2) (num 3).

(** Three providers, each reporting a dish of its own with 0.1, 0.2 and
    0.3 of carbs. *)
Definition nibble (name : string) (tenths : Z) : FoodItem.t float :=
  FoodItem.mk None name (num 1) "g" (num 0) (num tenths / num 10)%num (num 0) (num 0).
Definition tray1 : list (ProviderResult.t float) :=
  [ ProviderResult.mk (Some [nibble "a" 1]) None None None;
    ProviderResult.mk (Some [nibble "b" 2]) None None None;
    ProviderResult.mk (Some [nibble "c" 3]) None None None ].
Definition tray2 : list (ProviderResult.t float) :=
  [ ProviderResult.mk (Some [nibble "c" 3]) None None None;
    ProviderResult.mk (Some [nibble "b" 2]) None None None;
    ProviderResult.mk (Some [nibble "a" 1]) None None None ].




(** ** Vocabulary about exact quantities *)

(** The invariant of the data model: quantity and measures are not
    negative. *)
Definition nonNegativeItem (item : FoodItem.t Qc) : Prop :=
  (0 <= FoodItem.quantity item)%Qc /\
  (0 <= FoodItem.calories item)%Qc /\
  (0 <= FoodItem.carbs item)%Qc /\
  (0 <= FoodItem.fats item)%Qc /\
  (0 <= FoodItem.proteins item)%Qc.

Definition nonNegativeTotals (n : NutritionInfo.t Qc) : Prop :=
  (0 <= NutritionInfo.calories n)%Qc /\
  (0 <= NutritionInfo.carbs n)%Qc /\
  (0 <= NutritionInfo.fats n)%Qc /\
  (0 <= NutritionInfo.proteins n)%Qc.


(** A report of rice, read over the rationals. *)
Definition exactRice (quantity calories : Z) : FoodItem.t Qc :=
  FoodItem.mk None "Rice" (num quantity) "g" (num calories) (num 45) (num 1) (num 4).
Definition exactReport (quantity calories : Z) : ProviderResult.t Qc :=
  ProviderResult.mk (Some [exactRice quantity calories]) None None None.

(** Unfolds the monadic operations of a program run on concrete outcomes. *)
Ltac run_js :=
  unfold mbind, M_bind, mret, M_ret, bind, tryCatch, emit, lift, throw, ret;
  simpl.

(** * Properties *)

(** ** For every arithmetic *)

Section Properties.

Context {number : Type} `{!Arith number}.

Abbreviation ItemMap := (list (string * FoodItem.t number)).

Implicit Types (w : @World number) (chain : @Chain number)
  (st : @AddMealState number) (store state : AppState.t number)
  (m itemMap : ItemMap) (results : list (ProviderResult.t number))
  (foodItems l : list (FoodItem.t number)) (meal : Meal.t number)
  (x existing item : FoodItem.t number).

(** ** Reading the merge off the arrival sequence *)

Lemma Map_get_set_eq (m : ItemMap) k v : Map_get (Map_set m k v) k = Some v.
Proof.
  induction m as [|[k0 v0] m IH]; simpl.
  - by rewrite String.eqb_refl.
  - destruct (String.eqb k0 k) eqn:E; simpl; rewrite E; [done | apply IH].
Qed.

Lemma Map_get_set_ne (m : ItemMap) k k' v :
  k <> k' -> Map_get (Map_set m k v) k' = Map_get m k'.
Proof.
  intros Hne. induction m as [|[k0 v0] m IH]; simpl.
  - apply String.eqb_neq in Hne. by rewrite Hne.
  - destruct (String.eqb k0 k) eqn:E; simpl.
    + apply String.eqb_eq in E. subst k0.
      apply String.eqb_neq in Hne. by rewrite Hne.
    + destruct (String.eqb k0 k'); [done | apply IH].
Qed.

Lemma addItem_unfold m x :
  addItem m x =
  Map_set m (itemKey x)
    (match Map_get m (itemKey x) with
     | Some existing => mergeItem existing x
     | None => x
     end).
Proof. unfold addItem, Map_has. by destruct (Map_get m (itemKey x)). Qed.

Lemma Map_get_addItem m x k :
  Map_get (addItem m x) k =
  if decide (itemKey x = k) then mergeStep (Map_get m k) x else Map_get m k.
Proof.
  rewrite addItem_unfold. case_decide as Hk.
  - subst k. by rewrite Map_get_set_eq.
  - by apply Map_get_set_ne.
Qed.

Lemma Map_get_fold_addItem l : forall m k,
  Map_get (fold_left addItem l m) k =
  fold_left mergeStep (reportsOf k l) (Map_get m k).
Proof.
  induction l as [|x l IH]; intros m k; [done|].
  simpl. rewrite IH, Map_get_addItem. unfold reportsOf.
  rewrite filter_cons. by case_decide.
Qed.

Lemma fold_addResult_flat results : forall m,
  fold_left addResult results m = fold_left addItem (allItems results) m.
Proof.
  induction results as [|r results IH]; intros m; [done|].
  unfold allItems in *. simpl. rewrite fold_left_app, IH.
  unfold addResult. by destruct (ProviderResult.items r).
Qed.

Lemma mergeAll_flat results :
  mergeAll results = fold_left addItem (allItems results) [].
Proof. apply fold_addResult_flat. Qed.

Lemma Map_get_values (m : ItemMap) k v : Map_get m k = Some v -> v ∈ Map_values m.
Proof.
  induction m as [|[k0 v0] m IH]; simpl; [done|].
  destruct (String.eqb k0 k); intros H.
  - injection H as ->. apply list_elem_of_here.
  - apply list_elem_of_further, IH, H.
Qed.

Lemma mergeStep_fold_some l : forall acc,
  fold_left mergeStep l (Some acc) =
  Some (fold_left mergeItem l acc).
Proof. induction l as [|x l IH]; intros acc; simpl; [done | apply IH]. Qed.

Lemma mergeItem_fold_unit l : forall acc,
  FoodItem.unit (fold_left mergeItem l acc) = FoodItem.unit acc.
Proof. induction l as [|x l IH]; intros acc; simpl; [done | by rewrite IH]. Qed.

Lemma mergeItem_fold_name l acc z :
  last l = Some z ->
  FoodItem.name (fold_left mergeItem l acc) = FoodItem.name z.
Proof.
  destruct l as [|x l _] using rev_ind; [done|].
  rewrite last_snoc. intros [= ->]. by rewrite fold_left_app.
Qed.

Lemma totals_fold l : forall acc,
  fold_left addNutrition l acc =
  {| NutritionInfo.calories :=
       fold_left (fun a x => (a + FoodItem.calories x)%num) l (NutritionInfo.calories acc);
     NutritionInfo.carbs :=
       fold_left (fun a x => (a + FoodItem.carbs x)%num) l (NutritionInfo.carbs acc);
     NutritionInfo.fats :=
       fold_left (fun a x => (a + FoodItem.fats x)%num) l (NutritionInfo.fats acc);
     NutritionInfo.proteins :=
       fold_left (fun a x => (a + FoodItem.proteins x)%num) l (NutritionInfo.proteins acc) |}.
Proof.
  induction l as [|x l IH]; intros acc; simpl; [by destruct acc | by rewrite IH].
Qed.

Lemma totalsOf_sums l :
  totalsOf l =
  NutritionInfo.mk (sumOf FoodItem.calories l) (sumOf FoodItem.carbs l)
    (sumOf FoodItem.fats l) (sumOf FoodItem.proteins l).
Proof. unfold totalsOf. by rewrite totals_fold. Qed.

Lemma aggregateResults_multi results :
  length results <> 1 ->
  aggregateResults results =
  {| Aggregated.items := Some (Map_values (mergeAll results));
     Aggregated.totalNutrition := Some (totalsOf (Map_values (mergeAll results)));
     Aggregated.providersUsed := Some (length results);
     Aggregated.confidence :=
       Some (if (2 <=? length results)%nat then high else medium) |}.
Proof. by destruct results as [|r1 [|r2 rest]]. Qed.

Lemma merged_lookup results k :
  Map_get (mergeAll results) k =
  fold_left mergeStep (reportsOf k (allItems results)) None.
Proof. by rewrite mergeAll_flat, Map_get_fold_addItem. Qed.

(** ** The pairwise merge *)

Lemma addItem_merges itemMap existing item :
  Map_get itemMap (itemKey item) = Some existing ->
  exists merged,
    Map_get (addItem itemMap item) (itemKey item) = Some merged /\
    pairwiseAverage existing item merged.
Proof.
  intros Hget. exists (mergeItem existing item). split; [|by repeat split].
  rewrite Map_get_addItem, Hget. by case_decide.
Qed.

Lemma two_reports_are_merged r1 r2 l1 l2 a b :
  ProviderResult.items r1 = Some l1 ->
  ProviderResult.items r2 = Some l2 ->
  reportsOf (itemKey a) l1 = [a] ->
  reportsOf (itemKey a) l2 = [b] ->
  exists merged,
    Map_get (mergeAll [r1; r2]) (itemKey a) = Some merged /\
    (exists its, Aggregated.items (aggregateResults [r1; r2]) = Some its /\
                 merged ∈ its) /\
    itemKey b = itemKey a /\
    pairwiseAverage a b merged.
Proof.
  intros H1 H2 Ha Hb. exists (mergeItem a b).
  assert (Hget : Map_get (mergeAll [r1; r2]) (itemKey a) = Some (mergeItem a b)).
  { rewrite merged_lookup. unfold allItems. simpl. rewrite H1, H2. simpl.
    unfold reportsOf in *. rewrite app_nil_r, filter_app, Ha, Hb. done. }
  split; [exact Hget|]. split.
  - eexists. split; [reflexivity|]. by apply (Map_get_values _ (itemKey a)).
  - assert (Hin : b ∈ reportsOf (itemKey a) l2) by (rewrite Hb; apply list_elem_of_here).
    apply list_elem_of_filter in Hin as [Hk _]. by repeat split.
Qed.

(** C9. When two or more items arrive under one key, the merged item
    carries the name as the last arrival spelled it, and the unit of the
    first arrival. *)
Theorem merged_name_is_last_spelling :
  forall results k first last_ same,
    length results <> 1 ->
    reportsOf k (allItems results) = same ->
    (2 <= length same)%nat ->
    head same = Some first ->
    last same = Some last_ ->
    exists merged its,
      Map_get (mergeAll results) k = Some merged /\
      Aggregated.items (aggregateResults results) = Some its /\
      merged ∈ its /\
      FoodItem.name merged = FoodItem.name last_ /\
      FoodItem.unit merged = FoodItem.unit first.
Proof.
  intros results k first last_ same Hlen Hsame H2 Hhead Hlast.
  destruct same as [|x [|y rest]]; simpl in H2; try lia.
  injection Hhead as ->.
  assert (Hget : Map_get (mergeAll results) k =
                 Some (fold_left mergeItem (y :: rest) first)).
  { rewrite merged_lookup, Hsame. simpl. apply (mergeStep_fold_some (y :: rest)). }
  eexists _, _. split; [exact Hget|].
  rewrite aggregateResults_multi by done. split; [reflexivity|]. split.
  - by apply (Map_get_values _ k).
  - split; [| apply mergeItem_fold_unit].
    apply mergeItem_fold_name. by rewrite last_cons_cons in Hlast.
Qed.

(** ** Totals and confidence *)


(** ** Totals and the order of arrival *)

Lemma Map_set_keys (m : ItemMap) k v :
  map fst (Map_set m k v) =
  if Map_has m k then map fst m else map fst m ++ [k].
Proof.
  unfold Map_has. induction m as [|[k0 v0] m IH]; simpl; [done|].
  destruct (String.eqb k0 k) eqn:E; simpl; [done|].
  rewrite IH. by destruct (Map_get m k).
Qed.

Lemma Map_has_keys (m : ItemMap) k : Map_has m k = true <-> k ∈ map fst m.
Proof.
  unfold Map_has. induction m as [|[k0 v0] m IH]; simpl.
  - split; [done | intros H; inversion H].
  - destruct (String.eqb k0 k) eqn:E.
    + apply String.eqb_eq in E. subst. split; [intros _; apply list_elem_of_here | done].
    + apply String.eqb_neq in E. rewrite IH, elem_of_cons.
      split; [by right | by intros [-> | H]].
Qed.

Lemma Map_set_NoDup (m : ItemMap) k v :
  NoDup (map fst m) -> NoDup (map fst (Map_set m k v)).
Proof.
  intros Hnd. rewrite Map_set_keys.
  destruct (Map_has m k) eqn:E; [done|].
  apply NoDup_app. split; [done|]. split; [|apply NoDup_singleton].
  intros x Hx Hx'. apply list_elem_of_singleton in Hx'. subst x.
  apply Map_has_keys in Hx. congruence.
Qed.

Lemma addItem_NoDup m x : NoDup (map fst m) -> NoDup (map fst (addItem m x)).
Proof. rewrite addItem_unfold. apply Map_set_NoDup. Qed.

Lemma mergeAll_NoDup results : NoDup (map fst (mergeAll results)).
Proof.
  rewrite mergeAll_flat.
  assert (H : forall l m, NoDup (map fst m) -> NoDup (map fst (fold_left addItem l m))).
  { induction l as [|x l IH]; intros m Hm; [done|]. simpl. by apply IH, addItem_NoDup. }
  apply H. constructor.
Qed.

Lemma addItem_keys m x :
  map fst (addItem m x) =
  if decide (itemKey x ∈ map fst m) then map fst m else map fst m ++ [itemKey x].
Proof.
  rewrite addItem_unfold, Map_set_keys.
  destruct (Map_has m (itemKey x)) eqn:E.
  - apply Map_has_keys in E. by rewrite decide_True.
  - rewrite decide_False; [done|]. intros H. apply Map_has_keys in H. congruence.
Qed.

Lemma fold_addItem_keys l : forall m,
  map fst (fold_left addItem l m) =
  map fst m ++ firstOccurrences (map fst m) (map itemKey l).
Proof.
  induction l as [|x l IH]; intros m; simpl; [by rewrite app_nil_r|].
  rewrite IH, addItem_keys. case_decide; [done|].
  by rewrite <- app_assoc.
Qed.

Lemma Map_get_absent (m : ItemMap) k : k ∉ map fst m -> Map_get m k = None.
Proof.
  intros Hk. destruct (Map_get m k) eqn:G; [|done].
  exfalso. apply Hk, Map_has_keys. unfold Map_has. by rewrite G.
Qed.

Lemma totalsOf_measures (m : ItemMap) : forall acc,
  fold_left addNutrition (Map_values m) acc =
  fold_left addMeasures (map snd (measuresOf m)) acc.
Proof.
  unfold Map_values, measuresOf.
  induction m as [|[k v] m IH]; intros acc; simpl; [done | apply IH].
Qed.

Lemma measuresOf_equal_lookups (m : ItemMap) : forall m' : ItemMap,
  NoDup (map fst m) ->
  map fst m = map fst m' ->
  (forall k, nutritionOf <$> Map_get m k = nutritionOf <$> Map_get m' k) ->
  measuresOf m = measuresOf m'.
Proof.
  unfold measuresOf.
  induction m as [|[k v] m IH]; intros [|[k' v'] m'] Hnd Hkeys Heq; try done.
  simpl in Hkeys. injection Hkeys as <- Hkeys.
  apply NoDup_cons in Hnd as [Hk Hnd]. simpl. f_equal.
  - specialize (Heq k). simpl in Heq. rewrite String.eqb_refl in Heq.
    simpl in Heq. congruence.
  - apply IH; [done | done |]. intros k0.
    destruct (String.eqb k k0) eqn:E.
    + apply String.eqb_eq in E. subst k0.
      rewrite !Map_get_absent; [done | by rewrite <- Hkeys | done].
    + specialize (Heq k0). simpl in Heq. by rewrite E in Heq.
Qed.

Lemma totals_of_equal_lookups (m m' : ItemMap) :
  NoDup (map fst m) ->
  map fst m = map fst m' ->
  (forall k, nutritionOf <$> Map_get m k = nutritionOf <$> Map_get m' k) ->
  totalsOf (Map_values m) = totalsOf (Map_values m').
Proof.
  intros Hnd Hkeys Heq. unfold totalsOf.
  by rewrite !totalsOf_measures, (measuresOf_equal_lookups m m').
Qed.

Lemma mergeAll_keys results :
  map fst (mergeAll results) = firstOccurrences [] (map itemKey (allItems results)).
Proof. by rewrite mergeAll_flat, fold_addItem_keys. Qed.

Section CommutativeAddition.

Hypothesis jsAdd_comm : forall x y : number, (x + y)%num = (y + x)%num.

Lemma mergeItem_nutrition_comm (a b : FoodItem.t number) :
  nutritionOf (mergeItem a b) = nutritionOf (mergeItem b a).
Proof.
  unfold nutritionOf, mergeItem, average. simpl.
  by rewrite (jsAdd_comm (FoodItem.calories a)), (jsAdd_comm (FoodItem.carbs a)),
    (jsAdd_comm (FoodItem.fats a)), (jsAdd_comm (FoodItem.proteins a)).
Qed.

Lemma mergeStep_perm_nutrition (l l' : list (FoodItem.t number)) :
  l ≡ₚ l' ->
  (length l <= 2)%nat ->
  nutritionOf <$> fold_left mergeStep l None =
  nutritionOf <$> fold_left mergeStep l' None.
Proof.
  intros Hp Hlen.
  destruct l as [|a [|b [|c l]]]; simpl in Hlen; try lia.
  - apply Permutation_nil in Hp. by subst.
  - apply Permutation_length_1_inv in Hp. by subst.
  - apply Permutation_length_2_inv in Hp as [-> | ->]; simpl; [done|].
    f_equal. apply mergeItem_nutrition_comm.
Qed.

(** Where addition commutes, lists that arrive in another order, report
    no key more than twice and present their keys in the same first-seen
    order have the same totals. *)
Lemma totals_of_reordered_lists results results' :
  (2 <= length results)%nat ->
  results ≡ₚ results' ->
  (forall k, (length (reportsOf k (allItems results)) <= 2)%nat) ->
  firstOccurrences [] (map itemKey (allItems results)) =
  firstOccurrences [] (map itemKey (allItems results')) ->
  Aggregated.totalNutrition (aggregateResults results) =
  Aggregated.totalNutrition (aggregateResults results').
Proof.
  intros Hlen Hp Htwice Hkeys.
  pose proof (Permutation_length Hp) as Hlen'.
  rewrite !aggregateResults_multi by lia. simpl. f_equal.
  apply totals_of_equal_lookups; [apply mergeAll_NoDup | by rewrite !mergeAll_keys |].
  intros k. rewrite !merged_lookup.
  apply mergeStep_perm_nutrition; [|apply Htwice].
  unfold reportsOf, allItems. apply filter_Permutation.
  by apply Permutation_flat_map.
Qed.

End CommutativeAddition.

(** ** Provider calls and the fan-out *)

Lemma callOpenRouter_outcome w imageBase64 (p : Provider) :
  callOpenRouter w imageBase64 (providerModel p) (providerKey p) =
  ([EvFetch (providerRequest imageBase64 p)],
   Return (providerOutcome w imageBase64 p)).
Proof.
  unfold callOpenRouter, providerOutcome, doFetch, providerRequest.
  unfold mbind, M_bind, bind, tryCatch, emit, lift, throw, ret. simpl.
  destruct (fetch w _) as [e|response]; simpl; [done|].
  destruct (ok response); simpl; [|done].
  destruct (content response) as [e|text]; simpl; [done|].
  by destruct (JSON_parse w _) as [e|parsed].
Qed.

Lemma Promise_allSettled_fulfilled {A} (log : list Event) (v : A) rest log' settled :
  Promise_allSettled rest = (log', Return settled) ->
  Promise_allSettled ((log, Return v) :: rest) =
  (log ++ log', Return (fulfilled v :: settled)).
Proof. intros H. simpl. by rewrite H. Qed.

Lemma fanOut_outcome w imageBase64 providers :
  fanOut w imageBase64 providers =
  (map (fun p => EvFetch (providerRequest imageBase64 p)) providers,
   Return (map (fun p => fulfilled (providerOutcome w imageBase64 p)) providers)).
Proof.
  unfold fanOut. induction providers as [|p providers IH]; [done|].
  rewrite !map_cons, callOpenRouter_outcome.
  by rewrite (Promise_allSettled_fulfilled _ _ _ _ _ IH).
Qed.

Lemma validResults_successes w imageBase64 providers :
  validResults (map (fun p => fulfilled (providerOutcome w imageBase64 p)) providers) =
  successes w imageBase64 providers.
Proof.
  unfold validResults, successes.
  induction providers as [|p providers IH]; [done|].
  simpl. destruct (providerOutcome w imageBase64 p); simpl;
    [f_equal|]; exact IH.
Qed.

(** C5. A fan-out over any list of providers makes one request per
    provider, whatever the other calls do; every call settles as a value
    ([null] for a failed one), none is rejected; the valid results are
    exactly the payloads of the providers that succeeded. *)
Theorem fanOut_settles_all :
  forall w imageBase64 providers,
    (forall p, exists v,
        outcomeOf (callOpenRouter w imageBase64 (providerModel p) (providerKey p))
        = Return v) /\
    exists settled,
      outcomeOf (fanOut w imageBase64 providers) = Return settled /\
      length settled = length providers /\
      settled = map (fun p => fulfilled (providerOutcome w imageBase64 p)) providers /\
      (forall reason, rejected reason ∉ settled) /\
      logOf (fanOut w imageBase64 providers) =
        map (fun p => EvFetch (providerRequest imageBase64 p)) providers /\
      validResults settled = successes w imageBase64 providers.
Proof.
  intros w imageBase64 providers. split.
  - intros p. rewrite callOpenRouter_outcome. by eexists.
  - rewrite fanOut_outcome. eexists. split; [reflexivity|].
    split; [by rewrite length_map|]. split; [done|].
    split; [|split; [done | apply validResults_successes]].
    intros reason Hin. apply list_elem_of_fmap in Hin as (p & Hp & _).
    discriminate Hp.
Qed.

Lemma litAction_outcome w providers signing imageBase64 pk :
  litAction w providers signing imageBase64 pk =
  let fetches := map (fun p => EvFetch (providerRequest imageBase64 p)) providers in
  match successes w imageBase64 providers with
  | [] => (fetches, Return (LitFailure "All AI providers failed" (Date_now w)))
  | r :: rs =>
      let data := aggregateResults (r :: rs) in
      if signing then
        (fetches ++ [EvSign],
         Return (match signEcdsa w data pk with
                 | Return sg =>
                     LitSuccess data (Some sg) (Date_now w) "lit-protocol" "1.0.0"
                 | Throw e => LitFailure e (Date_now w)
                 end))
      else (fetches, Return (LitSuccess data None (Date_now w) "lit-protocol" "1.0.0"))
  end.
Proof.
  unfold litAction. rewrite fanOut_outcome.
  unfold mbind, M_bind, bind, tryCatch. cbv zeta.
  rewrite validResults_successes.
  destruct (successes w imageBase64 providers) as [|r rs]; simpl.
  - by rewrite !app_nil_r.
  - destruct signing; simpl; [|by rewrite !app_nil_r].
    destruct (signEcdsa w _ pk); simpl; by rewrite ?app_nil_r.
Qed.

(** ** What counts as a failed provider *)

(** C8, as the code has it. A provider call is a success exactly when the
    request is answered, the status is 2xx, the content is readable and
    its text parses to something other than [null]; the payload is then
    the result whatever its item list holds, an empty list included. *)
Theorem provider_call_succeeds_iff :
  forall w imageBase64 providers p payload,
    p ∈ providers ->
    (outcomeOf (callOpenRouter w imageBase64 (providerModel p) (providerKey p))
       = Return (Some payload)
     <->
     exists response text,
       fetch w (providerRequest imageBase64 p) = Return response /\
       ok response = true /\
       content response = Return text /\
       JSON_parse w (trim (stripFences text)) = Return (Some payload)) /\
    (outcomeOf (callOpenRouter w imageBase64 (providerModel p) (providerKey p))
       = Return (Some payload) ->
     payload ∈ successes w imageBase64 providers).
Proof.
  intros w imageBase64 providers p payload Hp. rewrite callOpenRouter_outcome.
  unfold outcomeOf. simpl. split; [split|].
  - unfold providerOutcome. intros [= H].
    destruct (fetch w _) as [e|response]; [done|].
    destruct (ok response) eqn:Hok; [|done].
    destruct (content response) as [e|text] eqn:Htext; [done|].
    destruct (JSON_parse w _) as [e|parsed] eqn:Hparse; [done|].
    subst parsed. by exists response, text.
  - unfold providerOutcome. intros (response & text & -> & -> & -> & ->). done.
  - intros [= H]. unfold successes. apply list_elem_of_omap. by exists p.
Qed.

(** ** An empty merge *)

Lemma allItems_empty results :
  Forall (fun r => ProviderResult.items r = Some []) results ->
  allItems results = [].
Proof.
  unfold allItems. induction 1 as [|r results Hr _ IH]; [done|].
  simpl. by rewrite Hr, IH.
Qed.

(** C2, as the code has it. When each of two or more successful sources
    reports zero items, the aggregation is a success with no items, all
    totals zero, every source counted and confidence [high], and the
    action returns it; the action fails with "All AI providers failed"
    exactly when no provider succeeded. *)
Theorem empty_merge_is_a_success :
  forall w providers imageBase64 pk results,
    successes w imageBase64 providers = results ->
    (2 <= length results)%nat ->
    Forall (fun r => ProviderResult.items r = Some []) results ->
    aggregateResults results =
      {| Aggregated.items := Some [];
         Aggregated.totalNutrition := Some zeroNutrition;
         Aggregated.providersUsed := Some (length results);
         Aggregated.confidence := Some high |} /\
    outcomeOf (litAction w providers false imageBase64 pk) =
      Return (LitSuccess (aggregateResults results) None (Date_now w)
                "lit-protocol" "1.0.0") /\
    (forall sg, signEcdsa w (aggregateResults results) pk = Return sg ->
       outcomeOf (litAction w providers true imageBase64 pk) =
         Return (LitSuccess (aggregateResults results) (Some sg) (Date_now w)
                   "lit-protocol" "1.0.0")) /\
    (forall others,
       outcomeOf (litAction w others false imageBase64 pk) =
         Return (LitFailure "All AI providers failed" (Date_now w)) <->
       successes w imageBase64 others = []).
Proof.
  intros w providers imageBase64 pk results Hres Hlen Hempty.
  split; [|split; [|split]].
  - rewrite aggregateResults_multi by lia.
    rewrite mergeAll_flat, allItems_empty by done.
    by rewrite (proj2 (Nat.leb_le 2 (length results)) Hlen).
  - rewrite litAction_outcome, Hres.
    destruct results as [|r rs]; [simpl in Hlen; lia | done].
  - intros sg Hsg. rewrite litAction_outcome, Hres.
    destruct results as [|r rs]; [simpl in Hlen; lia|].
    cbv beta iota zeta. by rewrite Hsg.
  - intros others. rewrite litAction_outcome.
    by destruct (successes w imageBase64 others).
Qed.

(** ** The service *)

Lemma analyzeFood_outcome w s imageBase64 key :
  analyzeFood w s imageBase64 key =
  match wallet s with
  | None => ([], Throw notInitialized)
  | Some wal =>
      match litNodeClient s with
      | NoNode => ([], Throw ("Failed to analyze food: " ++ "Lit client not connected"))
      | Node ready =>
          match createSiweMessage w wal with
          | Throw e => ([EvAuthSig], Throw ("Failed to analyze food: " ++ e))
          | Return _ =>
              if ready then
                match executeJs w with
                | Throw e =>
                    ([EvAuthSig; EvExecuteJs],
                     Throw ("Failed to analyze food: " ++
                            ("Failed to analyze food image: " ++ e)))
                | Return _ =>
                    ([EvAuthSig; EvExecuteJs] ++
                     map (fun p => EvFetch (providerRequest imageBase64 p))
                       (inlineProviders key),
                     match successes w imageBase64 (inlineProviders key) with
                     | [] => Throw ("Failed to analyze food: " ++ "All AI providers failed")
                     | r :: rs =>
                         let data := aggregateResults (r :: rs) in
                         match Aggregated.items data with
                         | None => Throw ("Failed to analyze food: " ++ noItemsTypeError)
                         | Some its =>
                             Return
                               {| items := withIds w its;
                                  totalNutrition := Aggregated.totalNutrition data;
                                  providersUsed := orCount (Aggregated.providersUsed data) 1;
                                  confidence := orConfidence (Aggregated.confidence data) medium;
                                  timestamp := Date_now w;
                                  network := "lit-protocol";
                                  signature := None |}
                         end
                     end)
                end
              else ([EvAuthSig],
                    Throw ("Failed to analyze food: " ++ "Lit client not connected"))
          end
      end
  end.
Proof.
  unfold analyzeFood. destruct (wallet s) as [wal|]; [|done].
  unfold LitAIClient_createAuthSig, LitAIClient_analyzeFoodImage,
    inlineFoodAnalysisAction.
  rewrite litAction_outcome. cbv zeta.
  generalize (map (fun p => EvFetch (providerRequest imageBase64 p))
                (inlineProviders key)) as fetches.
  destruct (successes w imageBase64 (inlineProviders key)) as [|r rs];
    [|generalize (aggregateResults (r :: rs)) as data; intros data];
    intros fetches;
    (destruct (litNodeClient s) as [|[|]]; run_js; try done;
     destruct (createSiweMessage w wal) as [e|auth]; simpl; try done;
     destruct (executeJs w) as [e|[]]; simpl; try done).
  - by rewrite !app_nil_r.
  - destruct (Aggregated.items data); simpl; by rewrite !app_nil_r.
Qed.

Lemma analyzeFood_no_fallback_call w s imageBase64 key :
  List.filter isFallbackCall (logOf (analyzeFood w s imageBase64 key)) = [].
Proof.
  rewrite analyzeFood_outcome. cbv zeta.
  destruct (wallet s) as [wal|]; [|done].
  destruct (litNodeClient s) as [|[|]]; [done | |];
    destruct (createSiweMessage w wal) as [e|auth]; try done.
  destruct (executeJs w) as [e|[]]; [done|].
  destruct (successes w imageBase64 (inlineProviders key)) as [|r rs]; [done|].
  generalize (aggregateResults (r :: rs)) as data. intros data.
  by destruct (Aggregated.items data).
Qed.

Lemma analyzeFood_fails_without_successes w s imageBase64 key :
  successes w imageBase64 (inlineProviders key) = [] ->
  exists e, outcomeOf (analyzeFood w s imageBase64 key) = Throw e.
Proof.
  intros H. rewrite analyzeFood_outcome, H.
  destruct (wallet s) as [wal|]; [|by eexists].
  destruct (litNodeClient s) as [|[|]]; [by eexists | |];
    destruct (createSiweMessage w wal) as [e|auth]; try by eexists.
  destruct (executeJs w) as [e|[]]; by eexists.
Qed.

Lemma analyzeFoodFallback_log w s imageBase64 key :
  logOf (analyzeFoodFallback w s imageBase64 key) =
  [EvFetch (fallbackRequest imageBase64 key)].
Proof.
  unfold analyzeFoodFallback, doFetch. run_js.
  destruct (fetch w _) as [e|response]; simpl; [done|].
  destruct (ok response); simpl; [|done].
  destruct (content response) as [e|text]; simpl; [done|].
  destruct (JSON_parse w _) as [e|[result|]]; simpl; try done.
  by destruct (ProviderResult.items result).
Qed.

Lemma analyzeFoodFallback_success w s imageBase64 key r :
  outcomeOf (analyzeFoodFallback w s imageBase64 key) = Return r ->
  providersUsed r = 1%nat /\ confidence r = low /\
  network r = "centralized-fallback" /\ signature r = None.
Proof.
  unfold analyzeFoodFallback, doFetch. run_js.
  destruct (fetch w _) as [e|response]; simpl; [done|].
  destruct (ok response); simpl; [|done].
  destruct (content response) as [e|text]; simpl; [done|].
  destruct (JSON_parse w _) as [e|[result|]]; simpl; try done.
  destruct (ProviderResult.items result); simpl; [|done].
  by intros [= <-].
Qed.

Lemma analyzeImageTry_outcome w service c k base64 :
  analyzeImageTry w (Some service) (Some (String c k)) base64 =
  match analyzeFood w service base64 (String c k) with
  | (log, Return result) =>
      (log, Return (result,
                    {| metaProvidersUsed := Some (providersUsed result);
                       metaConfidence := Some (confidence result);
                       metaNetwork := Some (network result) |}))
  | (log, Throw _) =>
      match analyzeFoodFallback w service base64 (String c k) with
      | (log', Return result) =>
          (log ++ log',
           Return (result,
                   {| metaProvidersUsed := Some 1%nat;
                      metaConfidence := Some low;
                      metaNetwork := Some "centralized-fallback" |}))
      | (log', Throw e) => (log ++ log', Throw e)
      end
  end.
Proof.
  unfold analyzeImageTry.
  destruct (analyzeFood w service base64 (String c k)) as [log [e|result]];
    run_js; [|by rewrite app_nil_r].
  destruct (analyzeFoodFallback w service base64 (String c k)) as [log' [e'|result]];
    simpl; by rewrite ?app_nil_r.
Qed.

(** ** The fallback *)

(** C4. When no provider of the multi-provider attempt succeeds and the
    fallback call succeeds, [analyzeImage] ends with the fallback's result:
    network "centralized-fallback", confidence [low], one provider used;
    one fallback request is made, it is the last call, and nothing is
    retried. *)
Theorem fallback_after_total_failure :
  forall w service imageBase64 apiKey st r,
    apiKey <> "" ->
    successes w imageBase64 (inlineProviders apiKey) = [] ->
    outcomeOf (analyzeFoodFallback w service imageBase64 apiKey) = Return r ->
    (exists e, outcomeOf (analyzeFood w service imageBase64 apiKey) = Throw e) /\
    outcomeOf (analyzeImageTry w (Some service) (Some apiKey) imageBase64) =
      Return (r, {| metaProvidersUsed := Some 1%nat;
                    metaConfidence := Some low;
                    metaNetwork := Some "centralized-fallback" |}) /\
    network r = "centralized-fallback" /\
    confidence r = low /\
    providersUsed r = 1%nat /\
    logOf (analyzeImageTry w (Some service) (Some apiKey) imageBase64) =
      logOf (analyzeFood w service imageBase64 apiKey) ++
      [EvFetch (fallbackRequest imageBase64 apiKey)] /\
    List.filter isFallbackCall
      (logOf (analyzeImageTry w (Some service) (Some apiKey) imageBase64)) =
      [EvFetch (fallbackRequest imageBase64 apiKey)] /\
    fst (analyzeImage w st (Some service) (Some apiKey) imageBase64) =
      {| isCapturing := false;
         isAnalyzing := false;
         foodItems := items r;
         error := None;
         analysisMetadata :=
           {| metaProvidersUsed := Some 1%nat;
              metaConfidence := Some low;
              metaNetwork := Some "centralized-fallback" |} |}.
Proof.
  intros w service imageBase64 apiKey st r Hkey Hnone Hfb.
  destruct (analyzeFood_fails_without_successes w service imageBase64 apiKey Hnone)
    as [e He].
  destruct (analyzeFoodFallback_success _ _ _ _ _ Hfb) as (Hused & Hconf & Hnet & _).
  pose proof (analyzeFoodFallback_log w service imageBase64 apiKey) as Hlog.
  pose proof (analyzeFood_no_fallback_call w service imageBase64 apiKey) as Hnofb.
  assert (Htry : analyzeImageTry w (Some service) (Some apiKey) imageBase64 =
                 (logOf (analyzeFood w service imageBase64 apiKey) ++
                  [EvFetch (fallbackRequest imageBase64 apiKey)],
                  Return (r, {| metaProvidersUsed := Some 1%nat;
                                metaConfidence := Some low;
                                metaNetwork := Some "centralized-fallback" |}))).
  { unfold analyzeImageTry. destruct apiKey as [|c k]; [done|].
    destruct (analyzeFood w service imageBase64 (String c k)) as [log1 o1].
    destruct (analyzeFoodFallback w service imageBase64 (String c k)) as [log2 o2].
    unfold outcomeOf, logOf in *. simpl in *. subst. run_js.
    by rewrite ?app_nil_r. }
  split; [by exists e|]. split; [by rewrite Htry|].
  do 3 (split; [done|]). split; [by rewrite Htry|]. split.
  - rewrite Htry. unfold logOf at 1. simpl.
    rewrite List.filter_app, Hnofb. done.
  - unfold analyzeImage. by rewrite Htry.
Qed.

(** ** A single success *)




(** ** Initialization *)

Lemma initialize_completed w s privateKey s' log :
  initialize w s privateKey = (s', (log, Return ())) -> is_Some (wallet s').
Proof.
  unfold initialize.
  destruct (LitAIClient_connect w (litNodeClient s)) as [n [log0 [e|[]]]]; [done|].
  destruct privateKey as [[|c k]|]; try (intros [= <- _]; by eexists).
  destruct (Wallet_new w (String c k)); [done|]. intros [= <- _]. by eexists.
Qed.

Lemma initialize_failed w s privateKey s' log e :
  initialize w s privateKey = (s', (log, Throw e)) -> wallet s' = wallet s.
Proof.
  unfold initialize.
  destruct (LitAIClient_connect w (litNodeClient s)) as [n [log0 [e0|[]]]].
  - by intros [= <- _ _].
  - destruct privateKey as [[|c k]|]; try done.
    destruct (Wallet_new w (String c k)); [|done]. by intros [= <- _ _].
Qed.

Lemma initialize_keeps_wallet w s privateKey :
  is_Some (wallet s) -> is_Some (wallet (fst (initialize w s privateKey))).
Proof.
  intros Hs.
  destruct (initialize w s privateKey) as [s' [log [e|[]]]] eqn:E; simpl.
  - by rewrite (initialize_failed _ _ _ _ _ _ E).
  - by apply (initialize_completed _ _ _ _ _ E).
Qed.

Lemma disconnect_completed w s s' log :
  disconnect w s = (s', (log, Return ())) -> wallet s' = None.
Proof.
  unfold disconnect.
  destruct (LitAIClient_disconnect w (litNodeClient s)) as [n [log0 [e|[]]]]; [done|].
  by intros [= <- _].
Qed.

Lemma performAll_keeps_wallet w ops : forall s,
  is_Some (wallet s) ->
  forallb (fun op => negb (isDisconnect op)) ops = true ->
  is_Some (wallet (performAll w s ops)).
Proof.
  unfold performAll.
  induction ops as [|op ops IH]; intros s Hs Hops; [done|].
  simpl in Hops. apply andb_prop in Hops as [Hop Hops]. simpl.
  apply IH; [|done].
  destruct op; simpl in *; try done. by apply initialize_keeps_wallet.
Qed.

Lemma performAll_keeps_null w ops : forall s,
  wallet s = None ->
  forallb (fun op => negb (isInitialize op)) ops = true ->
  wallet (performAll w s ops) = None.
Proof.
  unfold performAll.
  induction ops as [|op ops IH]; intros s Hs Hops; [done|].
  simpl in Hops. apply andb_prop in Hops as [Hop Hops]. simpl.
  apply IH; [|done].
  destruct op; simpl in *; try done.
  unfold disconnect.
  by destruct (LitAIClient_disconnect w (litNodeClient s)) as [n [log0 [e|[]]]].
Qed.

(** C10. While the wallet is null, as it is until [initialize] has
    completed, [analyzeFood] throws "Service not initialized" at once,
    having called nothing and changed nothing.  A completed [initialize]
    leaves a wallet, no operation but [disconnect] removes it, and a
    completed [disconnect] leaves none. *)
Theorem analyzeFood_requires_initialize :
  forall w s imageBase64 key,
    wallet s = None ->
    analyzeFood w s imageBase64 key = ([], Throw notInitialized) /\
    perform w s (OpAnalyzeFood imageBase64 key) = s /\
    wallet newService = None /\
    (forall ops,
       forallb (fun op => negb (isInitialize op)) ops = true ->
       wallet (performAll w newService ops) = None) /\
    (forall s0 privateKey s' log e,
       initialize w s0 privateKey = (s', (log, Throw e)) -> wallet s' = wallet s0) /\
    (forall s0 privateKey s' log,
       initialize w s0 privateKey = (s', (log, Return ())) ->
       is_Some (wallet s') /\
       forall ops,
         forallb (fun op => negb (isDisconnect op)) ops = true ->
         is_Some (wallet (performAll w s' ops))) /\
    (forall s0 s' log,
       disconnect w s0 = (s', (log, Return ())) -> wallet s' = None).
Proof.
  intros w s imageBase64 key Hnull.
  split; [unfold analyzeFood; by rewrite Hnull|].
  split; [done|]. split; [done|].
  split; [intros ops; by apply performAll_keeps_null|].
  split; [apply initialize_failed|]. split; [|apply disconnect_completed].
  intros s0 privateKey s' log Hinit.
  pose proof (initialize_completed _ _ _ _ _ Hinit) as Hsome.
  split; [done|]. intros ops. by apply performAll_keeps_wallet.
Qed.

(** * Further properties of the aggregation *)

Lemma mergeItem_key existing x : itemKey (mergeItem existing x) = itemKey x.
Proof. done. Qed.

Lemma Map_set_filed (m : ItemMap) k v :
  Forall (fun kv => itemKey (snd kv) = fst kv) m ->
  itemKey v = k ->
  Forall (fun kv => itemKey (snd kv) = fst kv) (Map_set m k v).
Proof.
  intros Hm Hv. induction Hm as [|[k0 v0] m H0 Hm IH]; simpl.
  - by repeat constructor.
  - destruct (String.eqb k0 k) eqn:E; constructor; try done.
    apply String.eqb_eq in E. by subst.
Qed.

Lemma fold_addItem_filed l : forall m,
  Forall (fun kv => itemKey (snd kv) = fst kv) m ->
  Forall (fun kv => itemKey (snd kv) = fst kv) (fold_left addItem l m).
Proof.
  induction l as [|x l IH]; intros m Hm; [done|].
  simpl. apply IH. rewrite addItem_unfold. apply Map_set_filed; [done|].
  by destruct (Map_get m (itemKey x)).
Qed.

Lemma filed_keys (m : ItemMap) :
  Forall (fun kv => itemKey (snd kv) = fst kv) m ->
  map itemKey (Map_values m) = map fst m.
Proof.
  unfold Map_values. induction 1 as [|[k v] m H _ IH]; [done|].
  simpl in *. by rewrite H, IH.
Qed.

Lemma mergeAll_item_keys results :
  map itemKey (Map_values (mergeAll results)) = map fst (mergeAll results).
Proof.
  apply filed_keys. rewrite mergeAll_flat. apply fold_addItem_filed. constructor.
Qed.

Lemma firstOccurrences_elem keys : forall seen k,
  k ∈ firstOccurrences seen keys <-> k ∈ keys /\ k ∉ seen.
Proof.
  induction keys as [|k0 keys IH]; intros seen k; simpl.
  - split; [intros H; inversion H | intros [H _]; inversion H].
  - case_decide as Hk0.
    + rewrite IH, elem_of_cons. split; [intros [H Hs]; split; [by right | done] |].
      intros [[-> | H] Hs]; [done | by split].
    + rewrite elem_of_cons, IH, elem_of_cons, not_elem_of_app, list_elem_of_singleton.
      split.
      * intros [-> | (H & Hs & _)]; [by split; [left|] | by split; [right|]].
      * intros [[-> | H] Hs]; [by left|].
        destruct (decide (k = k0)) as [->|Hne]; [by left | by right].
Qed.

(** X1. With any number of lists other than one, the aggregated items
    hold each normalized name once: the keys of the final items are
    pairwise distinct, they are exactly the keys that some provider
    reported, and there are no more final items than reported ones. *)
Theorem aggregated_items_are_deduplicated :
  forall results,
    length results <> 1%nat ->
    exists finalItems,
      Aggregated.items (aggregateResults results) = Some finalItems /\
      NoDup (map itemKey finalItems) /\
      (forall k, k ∈ map itemKey finalItems <->
                 exists x, x ∈ allItems results /\ itemKey x = k) /\
      (length finalItems <= length (allItems results))%nat.
Proof.
  intros results Hlen. rewrite aggregateResults_multi by done.
  eexists. split; [reflexivity|].
  assert (Hkeys : forall k, k ∈ map itemKey (Map_values (mergeAll results)) <->
                            exists x, x ∈ allItems results /\ itemKey x = k).
  { intros k. rewrite mergeAll_item_keys, mergeAll_flat, fold_addItem_keys. simpl.
    rewrite firstOccurrences_elem. split.
    - intros [H _]. apply list_elem_of_fmap in H as (x & -> & Hx). by exists x.
    - intros (x & Hx & <-). split; [by apply list_elem_of_fmap_2 | apply not_elem_of_nil]. }
  assert (Hnd : NoDup (map itemKey (Map_values (mergeAll results)))).
  { rewrite mergeAll_item_keys. apply mergeAll_NoDup. }
  split; [exact Hnd|]. split; [exact Hkeys|].
  rewrite <- (length_map itemKey), <- (length_map itemKey (allItems results)).
  apply submseteq_length, NoDup_submseteq; [exact Hnd|].
  intros k Hk. apply Hkeys in Hk as (x & Hx & <-). by apply list_elem_of_fmap_2.
Qed.

(** X2. The final items come in the order in which their keys were first
    reported, whatever was merged into them later. *)
Theorem aggregated_items_in_first_seen_order :
  forall results,
    length results <> 1%nat ->
    exists finalItems,
      Aggregated.items (aggregateResults results) = Some finalItems /\
      map itemKey finalItems = firstOccurrences [] (map itemKey (allItems results)).
Proof.
  intros results Hlen. rewrite aggregateResults_multi by done.
  eexists. split; [reflexivity|].
  by rewrite mergeAll_item_keys, mergeAll_flat, fold_addItem_keys.
Qed.

Lemma fold_addItem_fresh l : forall m,
  NoDup (map fst m ++ map itemKey l) ->
  fold_left addItem l m = m ++ map (fun x => (itemKey x, x)) l.
Proof.
  induction l as [|x l IH]; intros m Hnd; simpl; [by rewrite app_nil_r|].
  assert (Hx : Map_get m (itemKey x) = None).
  { destruct (Map_get m (itemKey x)) eqn:G; [|done]. exfalso.
    apply NoDup_app in Hnd as (_ & Hdisj & _).
    apply (Hdisj (itemKey x)); [|apply list_elem_of_here].
    apply Map_has_keys. unfold Map_has. by rewrite G. }
  assert (Hset : forall (m0 : ItemMap) v,
             Map_get m0 (itemKey x) = None -> Map_set m0 (itemKey x) v = m0 ++ [(itemKey x, v)]).
  { induction m0 as [|[k0 v0] m0 IH0]; simpl; intros v H0; [done|].
    destruct (String.eqb k0 (itemKey x)); [done | by rewrite IH0]. }
  rewrite addItem_unfold, Hx, Hset by done.
  rewrite IH.
  - by rewrite <- app_assoc.
  - rewrite map_app. simpl. by rewrite <- app_assoc.
Qed.

(** X3. When no two reported items share a normalized name, nothing is
    merged: the final items are the reported items themselves, list after
    list in arrival order, and the totals are their sums. *)
Theorem distinct_items_are_concatenated :
  forall results,
    length results <> 1%nat ->
    NoDup (map itemKey (allItems results)) ->
    Aggregated.items (aggregateResults results) = Some (allItems results) /\
    Aggregated.totalNutrition (aggregateResults results) =
      Some (NutritionInfo.mk
              (sumOf FoodItem.calories (allItems results))
              (sumOf FoodItem.carbs (allItems results))
              (sumOf FoodItem.fats (allItems results))
              (sumOf FoodItem.proteins (allItems results))).
Proof.
  intros results Hlen Hnd. rewrite aggregateResults_multi by done. simpl.
  assert (H : Map_values (mergeAll results) = allItems results).
  { rewrite mergeAll_flat, fold_addItem_fresh by done. simpl.
    unfold Map_values. rewrite map_map. simpl. apply map_id. }
  by rewrite H, totalsOf_sums.
Qed.

Lemma allItems_hasItems results :
  allItems (List.filter hasItems results) = allItems results.
Proof.
  unfold allItems, hasItems. induction results as [|r results IH]; [done|].
  simpl. destruct (ProviderResult.items r) eqn:E; simpl; rewrite ?E; simpl;
    [f_equal|]; exact IH.
Qed.

(** X4. A result without an [items] array adds nothing to the merge, yet
    it is counted: with two or more results the final items are those of
    the results that have an array, while [providersUsed] is the number
    of all results and the confidence is [high]. *)
Theorem results_without_items_are_counted :
  forall results,
    (2 <= length results)%nat ->
    Aggregated.items (aggregateResults results) =
      Some (Map_values (mergeAll (List.filter hasItems results))) /\
    Aggregated.providersUsed (aggregateResults results) = Some (length results) /\
    Aggregated.confidence (aggregateResults results) = Some high.
Proof.
  intros results Hlen. rewrite aggregateResults_multi by lia.
  rewrite (proj2 (Nat.leb_le 2 (length results)) Hlen). simpl.
  by rewrite !mergeAll_flat, allItems_hasItems.
Qed.

Lemma Map_get_elem (m : ItemMap) k v : Map_get m k = Some v -> (k, v) ∈ m.
Proof.
  induction m as [|[k0 v0] m IH]; simpl; [done|].
  destruct (String.eqb k0 k) eqn:E.
  - apply String.eqb_eq in E. intros [= ->]. subst. apply list_elem_of_here.
  - intros H. by apply list_elem_of_further, IH.
Qed.

Lemma Map_set_Forall (P : FoodItem.t number -> Prop) (m : ItemMap) k v :
  Forall (fun kv => P (snd kv)) m -> P v ->
  Forall (fun kv => P (snd kv)) (Map_set m k v).
Proof.
  intros Hm Hv. induction Hm as [|[k0 v0] m H0 Hm IH]; simpl.
  - by repeat constructor.
  - destruct (String.eqb k0 k); by constructor.
Qed.

(** * Further properties of a provider call *)

Lemma prefix_other_head a p c s :
  a <> c -> String.prefix (String a p) (String c s) = false.
Proof. intros H. simpl. by destruct (ascii_dec a c). Qed.

Lemma prefix_same_head a p s :
  String.prefix (String a p) (String a s) = String.prefix p s.
Proof. simpl. by destruct (ascii_dec a a). Qed.

Lemma prefix_nil s : String.prefix "" s = true.
Proof. by destruct s. Qed.

Lemma prefix_json_false s :
  String.prefix "```" s = false -> String.prefix "```json" s = false.
Proof.
  destruct s as [|c s]; [intros _; reflexivity|].
  destruct (ascii_dec "`" c) as [<-|Hc]; [|by rewrite !prefix_other_head].
  rewrite !prefix_same_head. destruct s as [|d s]; [intros _; reflexivity|].
  destruct (ascii_dec "`" d) as [<-|Hd]; [|by rewrite !prefix_other_head].
  rewrite !prefix_same_head. destruct s as [|e s]; [intros _; reflexivity|].
  destruct (ascii_dec "`" e) as [<-|He]; [|by rewrite !prefix_other_head].
  rewrite !prefix_same_head. destruct s; simpl; discriminate.
Qed.

Lemma stripFences_emit c s :
  String.prefix "```" (String c s) = false ->
  stripFencesFrom 0 (String c s) = String c (stripFencesFrom 0 s).
Proof.
  intros H. cbn [stripFencesFrom]. by rewrite H, (prefix_json_false _ H).
Qed.

Lemma stripFences_emit_no_fence c s :
  String.prefix "```" (String c s) = false ->
  String.prefix "```" (String c (stripFencesFrom 0 s)) = false.
Proof.
  intros H.
  destruct (ascii_dec "`" c) as [<-|Hc]; [|by rewrite prefix_other_head].
  rewrite prefix_same_head in *.
  destruct s as [|d s]; [done|].
  destruct (ascii_dec "`" d) as [<-|Hd].
  - rewrite prefix_same_head in H.
    rewrite stripFences_emit, prefix_same_head.
    + destruct s as [|e s]; [done|].
      destruct (ascii_dec "`" e) as [<-|He]; [by rewrite prefix_same_head, prefix_nil in H|].
      rewrite stripFences_emit by (by rewrite prefix_other_head).
      by rewrite prefix_other_head.
    + rewrite prefix_same_head.
      destruct s as [|e s]; [done|].
      destruct (ascii_dec "`" e) as [<-|He]; [by rewrite prefix_same_head, prefix_nil in H|].
      by rewrite prefix_other_head.
  - rewrite stripFences_emit by (by rewrite prefix_other_head).
    by rewrite prefix_other_head.
Qed.

Lemma stripFencesFrom_no_fence s : forall skip,
  containsFence (stripFencesFrom skip s) = false.
Proof.
  induction s as [|c s IH]; intros skip; [by destruct skip|].
  destruct skip as [|k]; [|apply IH].
  cbn [stripFencesFrom].
  destruct (String.prefix "```json" (String c s)); [apply IH|].
  destruct (String.prefix "```" (String c s)) eqn:E; [apply IH|].
  cbn [containsFence]. by rewrite stripFences_emit_no_fence, IH.
Qed.

Lemma stripFences_fence_free s :
  containsFence s = false -> stripFences s = s.
Proof.
  unfold stripFences. induction s as [|c s IH]; [done|].
  cbn [containsFence]. intros H. apply orb_false_elim in H as [Hp Hs].
  by rewrite stripFences_emit, IH.
Qed.

(** X6. Cleaning a provider's text leaves no code fence in it, changes
    nothing in a text without fences, and so cleans once and for all. *)
Theorem stripFences_removes_every_fence :
  forall s,
    containsFence (stripFences s) = false /\
    (containsFence s = false -> stripFences s = s) /\
    stripFences (stripFences s) = stripFences s.
Proof.
  intros s. split; [apply stripFencesFrom_no_fence|].
  split; [apply stripFences_fence_free|].
  apply stripFences_fence_free, stripFencesFrom_no_fence.
Qed.

(** * Further properties of the normalized key *)

Lemma string_app_assoc s t u : s +:+ (t +:+ u) = (s +:+ t) +:+ u.
Proof.
  induction s as [|c s IH]; [done|].
  change (String c (s +:+ (t +:+ u)) = String c ((s +:+ t) +:+ u)).
  by rewrite IH.
Qed.

Lemma string_app_cons c s t : String c s +:+ t = String c (s +:+ t).
Proof. done. Qed.

Lemma string_app_nil_l t : "" +:+ t = t.
Proof. done. Qed.

Lemma string_app_nil_r s : s +:+ "" = s.
Proof.
  induction s as [|c s IH]; rewrite ?string_app_cons, ?string_app_nil_l;
    [done | by rewrite IH].
Qed.

Lemma rev_app_app s : forall t, String.rev_app s t = String.rev s +:+ t.
Proof.
  unfold String.rev. induction s as [|c s IH]; intros t; simpl; [done|].
  rewrite IH, (IH (String c "")). by rewrite <- string_app_assoc.
Qed.

Lemma rev_cons c s : String.rev (String c s) = String.rev s +:+ String c "".
Proof. unfold String.rev at 1. simpl. apply rev_app_app. Qed.

Lemma rev_append s t : String.rev (s +:+ t) = String.rev t +:+ String.rev s.
Proof.
  induction s as [|c s IH]; rewrite ?string_app_cons, ?string_app_nil_l.
  - by rewrite string_app_nil_r.
  - by rewrite !rev_cons, IH, string_app_assoc.
Qed.

Lemma allWhite_app s t : allWhite (s +:+ t) = allWhite s && allWhite t.
Proof.
  induction s as [|c s IH]; rewrite ?string_app_cons, ?string_app_nil_l; simpl; [done|].
  by rewrite IH, andb_assoc.
Qed.

Lemma allWhite_rev s : allWhite (String.rev s) = allWhite s.
Proof.
  induction s as [|c s IH]; [done|].
  rewrite rev_cons, allWhite_app, IH. simpl.
  by rewrite andb_true_r, andb_comm.
Qed.

Lemma trimStart_white p s : allWhite p = true -> trimStart (p +:+ s) = trimStart s.
Proof.
  induction p as [|c p IH]; rewrite ?string_app_cons, ?string_app_nil_l; simpl; [done|].
  intros H. apply andb_prop in H as [-> H]. by apply IH.
Qed.

Lemma trimStart_allWhite s : allWhite s = true -> trimStart s = "".
Proof.
  intros H. rewrite <- (string_app_nil_r s). by rewrite trimStart_white.
Qed.

Lemma trimStart_keeps_tail s t :
  allWhite s = false -> trimStart (s +:+ t) = trimStart s +:+ t.
Proof.
  induction s as [|c s IH]; rewrite ?string_app_cons, ?string_app_nil_l; simpl; [done|].
  destruct (isWhiteSpace c); simpl; [apply IH | done].
Qed.

Lemma trimEnd_white s p : allWhite p = true -> trimEnd (s +:+ p) = trimEnd s.
Proof.
  intros H. unfold trimEnd. rewrite rev_append, trimStart_white; [done|].
  by rewrite allWhite_rev.
Qed.

Lemma trim_padding p1 s p2 :
  allWhite p1 = true -> allWhite p2 = true ->
  trim (p1 +:+ s +:+ p2) = trim s.
Proof.
  intros H1 H2. unfold trim. rewrite trimStart_white by done.
  destruct (allWhite s) eqn:Hs.
  - rewrite !trimStart_allWhite; [done | done |].
    by rewrite allWhite_app, Hs, H2.
  - rewrite trimStart_keeps_tail by done. by apply trimEnd_white.
Qed.

Lemma lowerChar_white c : isWhiteSpace c = true -> lowerChar c = c.
Proof.
  unfold isWhiteSpace, lowerChar. intros H.
  destruct (65 <=? nat_of_ascii c)%nat eqn:E1; [|done].
  destruct (nat_of_ascii c <=? 90)%nat eqn:E2; [|done].
  apply Nat.leb_le in E1. exfalso.
  apply orb_prop in H as [H|H].
  - apply andb_prop in H as [_ H]. apply Nat.leb_le in H. lia.
  - apply Nat.eqb_eq in H. lia.
Qed.

Lemma toLowerCase_app s t : toLowerCase (s +:+ t) = toLowerCase s +:+ toLowerCase t.
Proof.
  induction s as [|c s IH]; rewrite ?string_app_cons, ?string_app_nil_l; simpl; [done|].
  by rewrite IH, string_app_cons.
Qed.

Lemma toLowerCase_white p : allWhite p = true -> toLowerCase p = p.
Proof.
  induction p as [|c p IH]; simpl; [done|].
  intros H. apply andb_prop in H as [Hc H]. by rewrite lowerChar_white, IH.
Qed.

(** X7. The key of an item does not see white space around the name:
    an item whose name is another's name between runs of white space has
    the same key, and so is merged with it. *)
Theorem itemKey_ignores_padding :
  forall (a b : FoodItem.t number) pad1 pad2,
    allWhite pad1 = true ->
    allWhite pad2 = true ->
    FoodItem.name b = pad1 +:+ FoodItem.name a +:+ pad2 ->
    itemKey b = itemKey a.
Proof.
  intros a b pad1 pad2 H1 H2 Hname. unfold itemKey.
  rewrite Hname, !toLowerCase_app.
  rewrite (toLowerCase_white pad1), (toLowerCase_white pad2) by done.
  by apply trim_padding.
Qed.

(** * Further properties of the action and of the service *)

(** X8. The action never throws: it returns a failure object when no
    provider succeeded, and also when the signing fails, in which case
    the analysis of the providers that did succeed is dropped and the
    signer's message is reported.  It asks every provider once and signs
    only when some provider succeeded. *)
Theorem action_fails_by_value :
  forall w providers imageBase64 pk,
    (forall signing, exists result,
        outcomeOf (litAction w providers signing imageBase64 pk) = Return result) /\
    (forall signing,
        List.filter isFetch (logOf (litAction w providers signing imageBase64 pk)) =
        map (fun p => EvFetch (providerRequest imageBase64 p)) providers) /\
    (successes w imageBase64 providers = [] ->
     forall signing,
       litAction w providers signing imageBase64 pk =
       (map (fun p => EvFetch (providerRequest imageBase64 p)) providers,
        Return (LitFailure "All AI providers failed" (Date_now w)))) /\
    (forall e,
       successes w imageBase64 providers <> [] ->
       signEcdsa w (aggregateResults (successes w imageBase64 providers)) pk = Throw e ->
       outcomeOf (litAction w providers true imageBase64 pk) =
       Return (LitFailure e (Date_now w))).
Proof.
  intros w providers imageBase64 pk.
  assert (Hfetches : forall l : list Provider,
             List.filter isFetch (map (fun p => EvFetch (providerRequest imageBase64 p)) l)
             = map (fun p => EvFetch (providerRequest imageBase64 p)) l).
  { induction l as [|p l IH]; simpl; [done | by rewrite IH]. }
  split; [|split; [|split]].
  - intros signing. rewrite litAction_outcome. cbv zeta.
    destruct (successes w imageBase64 providers); [by eexists|].
    destruct signing; by eexists.
  - intros signing. rewrite litAction_outcome. cbv zeta.
    destruct (successes w imageBase64 providers); [apply Hfetches|].
    destruct signing; unfold logOf; cbn [fst]; [|apply Hfetches].
    by rewrite List.filter_app, Hfetches, app_nil_r.
  - intros Hnone signing. by rewrite litAction_outcome, Hnone.
  - intros e Hsome Hsign. rewrite litAction_outcome. cbv zeta.
    destruct (successes w imageBase64 providers) as [|r rs]; [done|].
    unfold outcomeOf. cbn [snd]. by rewrite Hsign.
Qed.

Lemma analyzeFood_throws_wrapped w s imageBase64 key wal e :
  wallet s = Some wal ->
  outcomeOf (analyzeFood w s imageBase64 key) = Throw e ->
  exists cause, e = "Failed to analyze food: " +:+ cause.
Proof.
  intros Hwal. rewrite analyzeFood_outcome, Hwal. cbv zeta.
  destruct (litNodeClient s) as [|[|]]; [intros [= <-]; by eexists | |];
    destruct (createSiweMessage w wal) as [e0|auth];
    try (intros [= <-]; by eexists).
  destruct (executeJs w) as [e0|[]]; [intros [= <-]; by eexists|].
  destruct (successes w imageBase64 (inlineProviders key)) as [|r rs];
    [intros [= <-]; by eexists|].
  generalize (aggregateResults (r :: rs)) as data. intros data.
  destruct (Aggregated.items data); [done | intros [= <-]; by eexists].
Qed.

(** X9. Whatever goes wrong in [analyzeFood] once a wallet is there
    (no Lit node, a failed signature request, a failed execution, no
    provider, a result without items) is thrown under the one prefix
    "Failed to analyze food: "; the only other error is the missing
    initialization. *)
Theorem analyzeFood_errors_are_wrapped :
  forall w s imageBase64 key e,
    outcomeOf (analyzeFood w s imageBase64 key) = Throw e ->
    (wallet s = None /\ e = notInitialized) \/
    (wallet s <> None /\ exists cause, e = "Failed to analyze food: " +:+ cause).
Proof.
  intros w s imageBase64 key e H.
  destruct s as [node [wal|]]; simpl.
  - right. split; [done|].
    exact (analyzeFood_throws_wrapped w (mkService node (Some wal)) _ _ wal e eq_refl H).
  - left. split; [done|]. by injection H.
Qed.

(** X10. While the Lit node is missing or not ready, [analyzeFood] asks
    no provider and runs nothing on the network: it throws, and all it
    may have done is to request the signature message. *)
Theorem analyzeFood_needs_a_ready_node :
  forall w s imageBase64 key,
    nodeReady (litNodeClient s) = false ->
    (exists e, outcomeOf (analyzeFood w s imageBase64 key) = Throw e) /\
    (logOf (analyzeFood w s imageBase64 key) = [] \/
     logOf (analyzeFood w s imageBase64 key) = [EvAuthSig]) /\
    (forall wal auth,
       wallet s = Some wal ->
       createSiweMessage w wal = Return auth ->
       outcomeOf (analyzeFood w s imageBase64 key) =
       Throw "Failed to analyze food: Lit client not connected").
Proof.
  intros w s imageBase64 key Hnode. rewrite analyzeFood_outcome. cbv zeta.
  destruct (wallet s) as [wal|].
  - destruct (litNodeClient s) as [|[|]]; [|done|].
    + split; [by eexists|]. split; [by left|]. done.
    + destruct (createSiweMessage w wal) as [e0|auth] eqn:E.
      * split; [by eexists|]. split; [by right|].
        intros wal' auth' [= <-]. by rewrite E.
      * split; [by eexists|]. split; [by right|]. done.
  - split; [by eexists|]. split; [by left|]. done.
Qed.

(** X11. The fallback needs no initialization: on a service in any
    state it makes one request, to "google/gemini-2.5-pro" with the
    caller's key, and it succeeds exactly when the answer is 2xx,
    readable, and parses to an object with an item list.  Its result
    then carries the provider's items under fresh ids and the provider's
    own totals, with one provider, confidence [low], no signature. *)
Theorem fallback_succeeds_iff :
  forall w s imageBase64 key r,
    logOf (analyzeFoodFallback w s imageBase64 key) =
      [EvFetch (fallbackRequest imageBase64 key)] /\
    model (fallbackRequest imageBase64 key) = "google/gemini-2.5-pro" /\
    bearer (fallbackRequest imageBase64 key) = key /\
    (outcomeOf (analyzeFoodFallback w s imageBase64 key) = Return r <->
     exists response text payload its,
       fetch w (fallbackRequest imageBase64 key) = Return response /\
       ok response = true /\
       content response = Return text /\
       JSON_parse w (trim (stripFences text)) = Return (Some payload) /\
       ProviderResult.items payload = Some its /\
       r = {| items := withIds w its;
              totalNutrition := ProviderResult.totalNutrition payload;
              providersUsed := 1;
              confidence := low;
              timestamp := Date_now w;
              network := "centralized-fallback";
              signature := None |}).
Proof.
  intros w s imageBase64 key r.
  split; [apply analyzeFoodFallback_log|]. split; [done|]. split; [done|].
  unfold analyzeFoodFallback, doFetch. run_js. split.
  - destruct (fetch w _) as [e|response]; simpl; [done|].
    destruct (ok response) eqn:Hok; simpl; [|done].
    destruct (content response) as [e|text] eqn:Htext; simpl; [done|].
    destruct (JSON_parse w _) as [e|[payload|]] eqn:Hparse; simpl; try done.
    destruct (ProviderResult.items payload) as [its|] eqn:Hits; simpl; [|done].
    intros [= <-]. by exists response, text, payload, its.
  - intros (response & text & payload & its & -> & Hok & Htext & Hparse & Hits & ->).
    simpl. rewrite Hok. simpl. rewrite Htext. simpl. rewrite Hparse. simpl.
    by rewrite Hits.
Qed.

(** X12. Every error of the fallback is thrown under the prefix
    "Fallback analysis failed: ". *)
Theorem fallback_errors_are_wrapped :
  forall w s imageBase64 key e,
    outcomeOf (analyzeFoodFallback w s imageBase64 key) = Throw e ->
    exists cause, e = "Fallback analysis failed: " +:+ cause.
Proof.
  intros w s imageBase64 key e. unfold analyzeFoodFallback, doFetch. run_js.
  destruct (fetch w _) as [e0|response]; simpl; [intros [= <-]; by eexists|].
  destruct (ok response); simpl; [|intros [= <-]; by eexists].
  destruct (content response) as [e0|text]; simpl; [intros [= <-]; by eexists|].
  destruct (JSON_parse w _) as [e0|[payload|]]; simpl;
    try (intros [= <-]; by eexists).
  destruct (ProviderResult.items payload); simpl; [done | intros [= <-]; by eexists].
Qed.

Lemma successes_length w imageBase64 providers :
  (length (successes w imageBase64 providers) <= length providers)%nat.
Proof.
  unfold successes. induction providers as [|p providers IH]; [done|].
  change (omap (providerOutcome w imageBase64) (p :: providers)) with
    (match providerOutcome w imageBase64 p with
     | Some y => y :: omap (providerOutcome w imageBase64) providers
     | None => omap (providerOutcome w imageBase64) providers
     end).
  destruct (providerOutcome w imageBase64 p); simpl; lia.
Qed.

Lemma analyzeFood_success w s imageBase64 key r :
  outcomeOf (analyzeFood w s imageBase64 key) = Return r ->
  network r = "lit-protocol" /\
  signature r = None /\
  timestamp r = Date_now w /\
  ((exists p1 p2,
      successes w imageBase64 (inlineProviders key) = [p1; p2] /\
      providersUsed r = 2%nat /\ confidence r = high) \/
   (exists p,
      successes w imageBase64 (inlineProviders key) = [p] /\
      providersUsed r = orCount (ProviderResult.providersUsed p) 1 /\
      confidence r = orConfidence (ProviderResult.confidence p) medium)).
Proof.
  rewrite analyzeFood_outcome. cbv zeta.
  pose proof (successes_length w imageBase64 (inlineProviders key)) as Hlen.
  destruct (wallet s) as [wal|]; [|done].
  destruct (litNodeClient s) as [|[|]]; [done | |];
    destruct (createSiweMessage w wal) as [e0|auth]; try done.
  destruct (executeJs w) as [e0|[]]; [done|].
  destruct (successes w imageBase64 (inlineProviders key)) as [|r1 [|r2 [|r3 rs]]];
    [done | | | simpl in Hlen; lia].
  - unfold outcomeOf. simpl. destruct (ProviderResult.items r1); [|done].
    intros [= <-]. simpl. repeat split. right. by exists r1.
  - unfold outcomeOf. cbn [snd]. rewrite aggregateResults_multi by done.
    cbn [Aggregated.items Aggregated.providersUsed Aggregated.confidence
         Aggregated.totalNutrition].
    intros [= <-]. simpl. repeat split. left. by exists r1, r2.
Qed.


Lemma initialize_makes_ready w s privateKey s' log :
  initialize w s privateKey = (s', (log, Return ())) ->
  nodeReady (litNodeClient s') = true.
Proof.
  unfold initialize, LitAIClient_connect.
  destruct (nodeReady (litNodeClient s)) eqn:Hready.
  - unfold ret. destruct privateKey as [[|c k]|]; try (by intros [= <- _]).
    destruct (Wallet_new w (String c k)); [done | by intros [= <- _]].
  - destruct (connectNode w) as [e|[]]; [done|].
    destruct privateKey as [[|c k]|]; try (by intros [= <- _]).
    destruct (Wallet_new w (String c k)); [done | by intros [= <- _]].
Qed.

(** X14. Once [initialize] has completed, initializing again does not
    connect again, and [analyzeFood] gets as far as the Lit node: with
    the signature message granted and the execution accepted it asks
    both providers of the inlined action, in order. *)
Theorem initialize_then_use :
  forall w s privateKey s' log,
    initialize w s privateKey = (s', (log, Return ())) ->
    (forall again, logOf (snd (initialize w s' again)) = [] /\
                   litNodeClient (fst (initialize w s' again)) = litNodeClient s') /\
    (forall imageBase64 key,
       outcomeOf (analyzeFood w s' imageBase64 key) <> Throw notInitialized) /\
    (forall imageBase64 key wal auth,
       wallet s' = Some wal ->
       createSiweMessage w wal = Return auth ->
       executeJs w = Return () ->
       logOf (analyzeFood w s' imageBase64 key) =
       [EvAuthSig; EvExecuteJs;
        EvFetch (providerRequest imageBase64 (mkProvider "google/gemini-2.5-pro" key));
        EvFetch (providerRequest imageBase64
                   (mkProvider "anthropic/claude-3.5-sonnet" key))]).
Proof.
  intros w s privateKey s' log Hinit.
  pose proof (initialize_makes_ready _ _ _ _ _ Hinit) as Hready.
  destruct (initialize_completed _ _ _ _ _ Hinit) as [wal Hwal].
  split; [|split].
  - intros again. unfold initialize, LitAIClient_connect. rewrite Hready. unfold ret.
    destruct again as [[|c k]|]; try done.
    by destruct (Wallet_new w (String c k)).
  - intros imageBase64 key H.
    destruct (analyzeFood_throws_wrapped w s' _ _ wal _ Hwal H) as [cause Hcause].
    discriminate Hcause.
  - intros imageBase64 key wal' auth Hwal' Hauth Hexec.
    rewrite analyzeFood_outcome, Hwal', Hauth, Hexec. cbv zeta.
    destruct (litNodeClient s') as [|[|]]; done.
Qed.

(** * Further properties of [analyzeImage] *)

Lemma analyzeFood_fetch_count w s imageBase64 key :
  (length (List.filter isFetch (logOf (analyzeFood w s imageBase64 key))) <= 2)%nat.
Proof.
  rewrite analyzeFood_outcome. cbv zeta.
  destruct (wallet s) as [wal|]; [|simpl; lia].
  destruct (litNodeClient s) as [|[|]]; [simpl; lia | |];
    destruct (createSiweMessage w wal) as [e|auth]; try (simpl; lia).
  destruct (executeJs w) as [e|[]]; simpl; lia.
Qed.

(** X15. Without a stored API key, with an empty one, or without a
    service, [analyzeImage] calls nothing: it shows its error and leaves
    the items and the metadata as they were; no fallback is tried. *)
Theorem analyzeImage_without_key_or_service :
  forall w st aiService apiKey base64,
    apiKey = None \/ apiKey = Some "" \/ aiService = None ->
    analyzeImage w st aiService apiKey base64 =
    ({| isCapturing := false;
        isAnalyzing := false;
        foodItems := foodItems st;
        error := Some "Failed to analyze image. Please try again.";
        analysisMetadata := analysisMetadata st |}, []).
Proof.
  intros w st aiService apiKey base64 [-> | [-> | ->]]; try done.
  by destruct apiKey as [[|c k]|].
Qed.

(** X16. However [analyzeImage] ends, it is no longer analyzing nor
    capturing; it has made at most three requests, at most one of them to
    the fallback; it shows either no error, or its error with the items
    and metadata untouched; and the metadata of a success name either
    network "lit-protocol", or "centralized-fallback" with confidence
    [low] and one provider. *)
Theorem analyzeImage_settles :
  forall w st aiService apiKey base64,
    let st' := fst (analyzeImage w st aiService apiKey base64) in
    let log := snd (analyzeImage w st aiService apiKey base64) in
    isAnalyzing st' = false /\
    isCapturing st' = false /\
    (length (List.filter isFetch log) <= 3)%nat /\
    (length (List.filter isFallbackCall log) <= 1)%nat /\
    ((error st' = Some "Failed to analyze image. Please try again." /\
      foodItems st' = foodItems st /\
      analysisMetadata st' = analysisMetadata st) \/
     (error st' = None /\
      (metaNetwork (analysisMetadata st') = Some "lit-protocol" \/
       (metaNetwork (analysisMetadata st') = Some "centralized-fallback" /\
        metaConfidence (analysisMetadata st') = Some low /\
        metaProvidersUsed (analysisMetadata st') = Some 1%nat)))).
Proof.
  intros w st aiService apiKey base64.
  destruct apiKey as [[|c k]|]; [| |]; try (simpl; repeat split; try lia; by left).
  destruct aiService as [service|]; [|simpl; repeat split; try lia; by left].
  unfold analyzeImage. rewrite analyzeImageTry_outcome.
  pose proof (analyzeFood_fetch_count w service base64 (String c k)) as Hcount.
  pose proof (analyzeFood_no_fallback_call w service base64 (String c k)) as Hnofb.
  pose proof (analyzeFood_success w service base64 (String c k)) as Hshape.
  pose proof (analyzeFoodFallback_log w service base64 (String c k)) as Hlog.
  destruct (analyzeFood w service base64 (String c k)) as [log1 [e1|r1]];
    unfold logOf, outcomeOf in *; simpl in *.
  - destruct (analyzeFoodFallback w service base64 (String c k)) as [log2 [e2|r2]];
      simpl in *; subst log2; rewrite !List.filter_app, Hnofb, !length_app; simpl;
      repeat split; try lia; [by left | right; split; [done | by right]].
  - rewrite Hnofb. destruct (Hshape r1 eq_refl) as (Hnet & _).
    repeat split; try (simpl; lia). right. split; [done|].
    left. by rewrite Hnet.
Qed.

(** X17. When the Lit attempt and the fallback both fail, [analyzeImage]
    shows its error, keeps the items and the metadata that were on
    screen, and has asked the fallback once, as its last call. *)
Theorem analyzeImage_when_all_fail :
  forall w st service apiKey base64 e1 e2,
    apiKey <> "" ->
    outcomeOf (analyzeFood w service base64 apiKey) = Throw e1 ->
    outcomeOf (analyzeFoodFallback w service base64 apiKey) = Throw e2 ->
    analyzeImage w st (Some service) (Some apiKey) base64 =
    ({| isCapturing := false;
        isAnalyzing := false;
        foodItems := foodItems st;
        error := Some "Failed to analyze image. Please try again.";
        analysisMetadata := analysisMetadata st |},
     logOf (analyzeFood w service base64 apiKey) ++
     [EvFetch (fallbackRequest base64 apiKey)]) /\
    List.filter isFallbackCall
      (snd (analyzeImage w st (Some service) (Some apiKey) base64)) =
    [EvFetch (fallbackRequest base64 apiKey)].
Proof.
  intros w st service apiKey base64 e1 e2 Hkey H1 H2.
  destruct apiKey as [|c k]; [done|].
  pose proof (analyzeFood_no_fallback_call w service base64 (String c k)) as Hnofb.
  pose proof (analyzeFoodFallback_log w service base64 (String c k)) as Hlog.
  unfold analyzeImage. rewrite analyzeImageTry_outcome.
  destruct (analyzeFood w service base64 (String c k)) as [log1 o1].
  destruct (analyzeFoodFallback w service base64 (String c k)) as [log2 o2].
  unfold logOf, outcomeOf in *. simpl in *. subst. simpl.
  split; [done|]. by rewrite List.filter_app, Hnofb.
Qed.

(** * Properties of the meal editor, the store and the table *)

Lemma filter_index_above (l : list (FoodItem.t number)) : forall k t,
  (t < k)%nat ->
  map snd (List.filter (fun p => negb (fst p =? t)%nat)
             (imap (fun i item => (k + i, item)%nat) l)) = l.
Proof.
  induction l as [|x l IH]; intros k t Hlt; [done|].
  simpl. destruct (Nat.eqb_spec (k + 0) t) as [|_]; [lia|]. simpl. f_equal.
  rewrite (imap_ext _ (fun i item => (S k + i, item)%nat));
    [apply IH; lia | intros i y _; simpl; f_equal; lia].
Qed.

Lemma filter_index_delete (l : list (FoodItem.t number)) : forall k index,
  map snd (List.filter (fun p => negb (fst p =? k + index)%nat)
             (imap (fun i item => (k + i, item)%nat) l)) = delete index l.
Proof.
  induction l as [|x l IH]; intros k index; [done|].
  simpl. destruct index as [|j].
  - destruct (Nat.eqb_spec (k + 0) (k + 0)) as [_|]; [|done]. simpl.
    rewrite (imap_ext _ (fun i item => (S k + i, item)%nat));
      [apply filter_index_above; lia | intros i y _; simpl; f_equal; lia].
  - destruct (Nat.eqb_spec (k + 0) (k + S j)) as [|_]; [lia|]. simpl. f_equal.
    rewrite (imap_ext _ (fun i item => (S k + i, item)%nat));
      [|intros i y _; simpl; f_equal; lia].
    replace (k + S j)%nat with (S k + j)%nat by lia. apply IH.
Qed.

(** X18. [removeFoodItem] drops the item at the index and nothing else:
    the items before it stay, those after it move up by one, and an
    index past the end changes nothing. *)
Theorem removeFoodItem_drops_one :
  forall foodItems index,
    removeFoodItem foodItems index = delete index foodItems /\
    (forall j, (j < index)%nat ->
               removeFoodItem foodItems index !! j = foodItems !! j) /\
    (forall j, (index <= j)%nat ->
               removeFoodItem foodItems index !! j = foodItems !! S j) /\
    ((length foodItems <= index)%nat -> removeFoodItem foodItems index = foodItems).
Proof.
  intros foodItems index.
  assert (H : removeFoodItem foodItems index = delete index foodItems).
  { unfold removeFoodItem. apply (filter_index_delete foodItems 0 index). }
  rewrite H. split; [done|]. split; [|split].
  - intros j Hj. by apply list_lookup_delete_lt.
  - intros j Hj. by apply list_lookup_delete_ge.
  - intros Hlen. clear H. revert index Hlen.
    induction foodItems as [|x l IH]; intros index Hlen; [by destruct index|].
    destruct index as [|j]; simpl in *; [lia|]. f_equal. apply IH. lia.
Qed.

Lemma builtMeal_totals now hour foodItems :
  Meal.totalNutrition (builtMeal now hour foodItems) =
  NutritionInfo.mk (sumOf FoodItem.calories foodItems) (sumOf FoodItem.carbs foodItems)
    (sumOf FoodItem.fats foodItems) (sumOf FoodItem.proteins foodItems).
Proof. apply totalsOf_sums. Qed.

(** X19. Unless the wallet is connected, a table service is there and a
    table name is known, [saveMeal] appends the meal to the local store
    and navigates home; the meal holds the items as they are on screen
    and, as totals, the sums of their measures, whatever totals the
    analysis had reported. *)
Theorem saveMeal_stores_locally :
  forall chain now hour foodItems isConnected tablelandService userTable store,
    isConnected = false \/ tablelandService = None \/
    userTable = None \/ userTable = Some "" ->
    exists meal,
      saveMeal chain now hour foodItems isConnected tablelandService userTable store =
        {| saveError := None;
           saveStore := addMeal store meal;
           navigated := true;
           insertAttempt := None |} /\
      AppState.meals (addMeal store meal) = AppState.meals store ++ [meal] /\
      Meal.items meal = foodItems /\
      Meal.timestamp meal = now /\
      Meal.totalNutrition meal =
        NutritionInfo.mk (sumOf FoodItem.calories foodItems)
          (sumOf FoodItem.carbs foodItems) (sumOf FoodItem.fats foodItems)
          (sumOf FoodItem.proteins foodItems).
Proof.
  intros chain now hour foodItems isConnected tablelandService userTable store H.
  exists (builtMeal now hour foodItems).
  split; [|split; [done|]; split; [done|]; split; [done | apply builtMeal_totals]].
  unfold saveMeal. destruct isConnected; [|done].
  destruct tablelandService as [service|]; [|done].
  destruct userTable as [[|c k]|]; [done | | done].
  destruct H as [H | [H | [H | H]]]; discriminate H.
Qed.

(** X20. With the wallet connected, a table service and a table name,
    [saveMeal] never touches the local store.  It has the service insert
    one row into the service's own table, with whole seconds as
    timestamp, and navigates home when that succeeds; when the service
    is not initialized, has no table, or the insert fails, it shows its
    error, stays, and the meal is saved nowhere. *)
Theorem saveMeal_to_table :
  forall chain now hour foodItems service userTable store,
    userTable <> "" ->
    let outcome := saveMeal chain now hour foodItems true (Some service)
                     (Some userTable) store in
    let row := mealToRow chain (builtMeal now hour foodItems) in
    saveStore outcome = store /\
    MealRow.timestamp row = (now / 1000)%Z /\
    MealRow.total_calories row = sumOf FoodItem.calories foodItems /\
    (forall table,
       db service = true -> userTableName service = Some table -> table <> "" ->
       insertAttempt outcome = Some (table, row) /\
       (runInsert chain table row = Return () ->
        saveError outcome = None /\ navigated outcome = true) /\
       (forall e, runInsert chain table row = Throw e ->
                  saveError outcome = Some "Failed to save meal. Please try again." /\
                  navigated outcome = false)) /\
    (db service = false \/ userTableName service = None \/
     userTableName service = Some "" ->
     insertAttempt outcome = None /\
     saveError outcome = Some "Failed to save meal. Please try again." /\
     navigated outcome = false).
Proof.
  intros chain now hour foodItems service userTable store Hut.
  destruct userTable as [|c k]; [done|].
  assert (Hcal : MealRow.total_calories (mealToRow chain (builtMeal now hour foodItems))
                 = sumOf FoodItem.calories foodItems).
  { unfold mealToRow. cbn [MealRow.total_calories]. by rewrite builtMeal_totals. }
  unfold saveMeal, Tableland_saveMeal. cbv zeta.
  split; [|split; [done|]; split; [exact Hcal|]; split].
  - destruct (db service); simpl; [|done].
    destruct (userTableName service) as [[|c' k']|]; try done.
    by destruct (runInsert chain _ _).
  - intros table Hdb Htable Hne. rewrite Hdb, Htable. simpl.
    destruct table as [|c' k']; [done|].
    destruct (runInsert chain _ _) as [e0|[]]; simpl.
    + split; [done|]. split; [done | by intros e _].
    + split; [done|]. split; [done | by intros e].
  - intros [-> | [-> | ->]]; simpl; [done | |]; by destruct (db service).
Qed.

(** X21. What [saveMeal] binds and [getMeals] reads back is the meal up
    to three things: the timestamp is cut to whole seconds, the user id
    is gone, and an empty image URL comes back as none.  The id, the
    type, the totals and (with a JSON codec that reads what it wrote)
    the items are the same. *)
Theorem meal_row_round_trip :
  forall chain meal,
    JSON_parseItems chain (JSON_stringify chain (Meal.items meal)) =
      Return (Meal.items meal) ->
    exists back,
      rowToMeal chain (mealToRow chain meal) = Return back /\
      Meal.id back = Meal.id meal /\
      Meal.type back = Meal.type meal /\
      Meal.items back = Meal.items meal /\
      Meal.totalNutrition back = Meal.totalNutrition meal /\
      Meal.userId back = "" /\
      Meal.timestamp back = (Meal.timestamp meal - Meal.timestamp meal mod 1000)%Z /\
      (Meal.timestamp back <= Meal.timestamp meal < Meal.timestamp back + 1000)%Z /\
      Meal.imageUrl back =
        match Meal.imageUrl meal with
        | Some EmptyString => None
        | url => url
        end.
Proof.
  intros chain meal Hjson. unfold rowToMeal, mealToRow. simpl. rewrite Hjson.
  eexists. split; [reflexivity|]. simpl.
  pose proof (Z.div_mod (Meal.timestamp meal) 1000 ltac:(lia)) as Hdm.
  pose proof (Z.mod_pos_bound (Meal.timestamp meal) 1000 ltac:(lia)) as Hmod.
  repeat split; try done; try lia.
  - by destruct (Meal.totalNutrition meal).
  - by destruct (Meal.imageUrl meal) as [[|c u]|].
Qed.

Lemma sumMeals_snoc f meals meal :
  sumMeals f (meals ++ [meal]) = (sumMeals f meals + f (Meal.totalNutrition meal))%num.
Proof. unfold sumMeals. by rewrite fold_left_app. Qed.

Lemma todayMeals_snoc startOfDay now meals meal :
  todayMeals startOfDay now (meals ++ [meal]) =
  todayMeals startOfDay now meals ++
  (if (startOfDay (Meal.timestamp meal) =? startOfDay now)%Z then [meal] else []).
Proof. unfold todayMeals. by rewrite List.filter_app. Qed.

Lemma getDailyStats_shape startOfDay state now :
  (getDailyStats startOfDay state now = None <-> AppState.user state = None) /\
  forall stats,
    getDailyStats startOfDay state now = Some stats ->
    exists user,
      AppState.user state = Some user /\
      Forall (fun meal => startOfDay (Meal.timestamp meal) = startOfDay now)
        (DailyStats.meals stats) /\
      (forall meal,
         meal ∈ AppState.meals state ->
         startOfDay (Meal.timestamp meal) = startOfDay now ->
         meal ∈ DailyStats.meals stats) /\
      DailyStats.remainingCalories stats =
        (User.dailyCalorieTarget user - DailyStats.totalCalories stats)%num /\
      MacroTargets.carbs (DailyStats.remainingMacros stats) =
        (MacroTargets.carbs (User.dailyMacroTargets user)
         - NutritionInfo.carbs (DailyStats.totalMacros stats))%num /\
      MacroTargets.fats (DailyStats.remainingMacros stats) =
        (MacroTargets.fats (User.dailyMacroTargets user)
         - NutritionInfo.fats (DailyStats.totalMacros stats))%num /\
      MacroTargets.proteins (DailyStats.remainingMacros stats) =
        (MacroTargets.proteins (User.dailyMacroTargets user)
         - NutritionInfo.proteins (DailyStats.totalMacros stats))%num.
Proof.
  unfold getDailyStats.
  destruct (AppState.user state) as [user|]; [|by split].
  split; [by split|]. cbv zeta. intros stats [= <-]. exists user. simpl.
  split; [done|]. split; [|split; [|done]].
  - apply Forall_forall. intros meal Hin. unfold todayMeals in Hin.
    apply list_elem_of_In, filter_In in Hin as [_ Hin]. by apply Z.eqb_eq.
  - intros meal Hin Hday. unfold todayMeals.
    apply list_elem_of_In, filter_In. split; [by apply list_elem_of_In|].
    by apply Z.eqb_eq.
Qed.

(** X23. Adding a meal of today raises the day's totals by the meal's
    own totals, added last; what remains is then the user's target minus
    the new total; and the meal joins the day's list at its end.  Adding
    a meal of another day leaves the statistics of today as they were. *)
Theorem addMeal_updates_daily_stats :
  forall startOfDay state now meal stats,
    getDailyStats startOfDay state now = Some stats ->
    (startOfDay (Meal.timestamp meal) = startOfDay now ->
     exists stats' user,
       AppState.user state = Some user /\
       getDailyStats startOfDay (addMeal state meal) now = Some stats' /\
       DailyStats.meals stats' = DailyStats.meals stats ++ [meal] /\
       DailyStats.totalCalories stats' =
         (DailyStats.totalCalories stats
          + NutritionInfo.calories (Meal.totalNutrition meal))%num /\
       DailyStats.remainingCalories stats' =
         (User.dailyCalorieTarget user
          - (DailyStats.totalCalories stats
             + NutritionInfo.calories (Meal.totalNutrition meal)))%num /\
       NutritionInfo.proteins (DailyStats.totalMacros stats') =
         (NutritionInfo.proteins (DailyStats.totalMacros stats)
          + NutritionInfo.proteins (Meal.totalNutrition meal))%num) /\
    (startOfDay (Meal.timestamp meal) <> startOfDay now ->
     getDailyStats startOfDay (addMeal state meal) now = Some stats).
Proof.
  intros startOfDay state now meal stats. unfold getDailyStats. simpl.
  destruct (AppState.user state) as [user|]; [|done].
  cbv zeta. intros [= <-]. rewrite todayMeals_snoc. split.
  - intros Hday. rewrite (proj2 (Z.eqb_eq _ _) Hday).
    eexists _, user. split; [done|]. split; [reflexivity|]. simpl.
    by rewrite !sumMeals_snoc.
  - intros Hday. rewrite (proj2 (Z.eqb_neq _ _) Hday). by rewrite app_nil_r.
Qed.

End Properties.

(** * The program on doubles *)

(** ** The primitives on concrete inputs *)

Example Math_round_ties_go_up :
  (Math_round (num 5 / num 2)%num : float) = num 3 /\
  (Math_round (num (-5) / num 2)%num : float) = num (-2) /\
  (Math_round (num 12 / num 5)%num : float) = num 2 /\
  (Math_round (num (-1) / num 4)%num : float) = PrimFloat.opp (num 0) /\
  (roundTenth (num 249 / num 100)%num : float) = (num 5 / num 2)%num.
Proof. repeat split; vm_compute; reflexivity. Qed.

(** At the edges: one half and the double just below it, minus one half,
    the last half-integer below [2^52], an integer above it, and the
    values that are no numbers. *)
Example Math_round_at_the_edges :
  float_round half = one /\
  float_round (PrimFloat.next_down half) = PrimFloat.zero /\
  float_round (PrimFloat.opp half) = PrimFloat.opp PrimFloat.zero /\
  float_round (PrimFloat.sub two52 half) = two52 /\
  float_round (PrimFloat.opp (PrimFloat.sub two52 half)) =
    PrimFloat.opp (PrimFloat.sub two52 one) /\
  float_round (PrimFloat.add two52 one) = PrimFloat.add two52 one /\
  float_round PrimFloat.infinity = PrimFloat.infinity /\
  float_round PrimFloat.nan = PrimFloat.nan.
Proof. repeat split; vm_compute; reflexivity. Qed.

Example itemKey_lowers_and_trims :
  itemKey riceA = "rice" /\
  itemKey riceB = "rice" /\
  trim (toLowerCase "  Brown Rice ") = "brown rice".
Proof. done. Qed.

Example stripFences_drops_the_fences :
  trim (stripFences "```json { } ```") = "{ }" /\
  stripFences "``` a ``` b" = " a  b".
Proof. done. Qed.

(** ** The pairwise merge *)

(** [Math.round] and the mean on the numbers of the examples: 160 is
    exact, 72.5 is a tie and goes up, and ten times the mean of 0.1 and
    4.6 is 23.499999999999996, below the tie. *)
Example Math_round_on_the_merge_examples :
  (Math_round ((num 150 + num 170) / num 2)%num : float) = num 160 /\
  (Math_round ((num 70 + num 75) / num 2)%num : float) = num 73 /\
  (((num 1 / num 10 + num 46 / num 10) / num 2 * num 10)%num : float) <> num 235 /\
  (Math_round ((num 1 / num 10 + num 46 / num 10) / num 2 * num 10)%num : float) = num 23.
Proof.
  repeat split; try (vm_compute; reflexivity).
  intros H. vm_compute in H. discriminate H.
Qed.

(** C3. An item that arrives under a key already in the map is merged
    with the item stored there: quantity and calories are [Math.round] of
    the mean, carbs, fats and proteins are [Math.round] of ten times the
    mean, divided by ten, and the unit is the stored one; so it is in
    every arithmetic, and so for two providers that report one item
    each under the same key.  On doubles, "Rice" 150/200 and "rice"
    170/220 give quantity 160, calories 210 and the unit of the first;
    carbs 0.1 and 4.6 give 2.3, and calories 70 and 75 give 73. *)
Theorem merge_same_key_pair :
  (forall (number : Type) (arith : Arith number)
          (itemMap : list (string * FoodItem.t number)) existing item,
     Map_get itemMap (itemKey item) = Some existing ->
     exists merged,
       Map_get (addItem itemMap item) (itemKey item) = Some merged /\
       pairwiseAverage existing item merged) /\
  (forall (number : Type) (arith : Arith number)
          (r1 r2 : ProviderResult.t number) l1 l2 a b,
     ProviderResult.items r1 = Some l1 ->
     ProviderResult.items r2 = Some l2 ->
     reportsOf (itemKey a) l1 = [a] ->
     reportsOf (itemKey a) l2 = [b] ->
     exists merged,
       Map_get (mergeAll [r1; r2]) (itemKey a) = Some merged /\
       (exists its, Aggregated.items (aggregateResults [r1; r2]) = Some its /\
                    merged ∈ its) /\
       itemKey b = itemKey a /\
       pairwiseAverage a b merged) /\
  (exists merged,
     Aggregated.items (aggregateResults [resultA; resultB]) = Some [merged] /\
     FoodItem.quantity merged = num 160 /\
     FoodItem.calories merged = num 210 /\
     FoodItem.unit merged = "g") /\
  (exists merged,
     Aggregated.items
       (aggregateResults [ProviderResult.mk (Some [porridgeA]) None None None;
                          ProviderResult.mk (Some [porridgeB]) None None None])
       = Some [merged] /\
     FoodItem.quantity merged = num 110 /\
     FoodItem.calories merged = num 73 /\
     FoodItem.carbs merged = (num 23 / num 10)%num /\
     FoodItem.fats merged = (num 15 / num 10)%num /\
     FoodItem.proteins merged = (num 25 / num 10)%num).
Proof.
  split; [|split; [|split]].
  - intros number arith. apply addItem_merges.
  - intros number arith. apply two_reports_are_merged.
  - eexists. split; [reflexivity|]. repeat split; vm_compute; reflexivity.
  - eexists. split; [reflexivity|]. repeat split; vm_compute; reflexivity.
Qed.

Lemma merge_same_key_pair_witness :
  exists merged,
    Map_get (mergeAll [resultA; resultB]) "rice" = Some merged /\
    pairwiseAverage riceA riceB merged.
Proof.
  destruct merge_same_key_pair as (_ & Hpair & _).
  destruct (Hpair float binary64 resultA resultB [riceA] [riceB] riceA riceB)
    as (merged & Hget & _ & _ & Havg);
    [reflexivity | reflexivity | reflexivity | reflexivity |].
  exists merged. split; [exact Hget | exact Havg].
Defined.

Lemma merged_name_is_last_spelling_witness :
  exists merged its,
    Map_get (mergeAll [resultA; resultB]) "rice" = Some merged /\
    Aggregated.items (aggregateResults [resultA; resultB]) = Some its /\
    merged ∈ its /\
    FoodItem.name merged = "rice" /\
    FoodItem.unit merged = "g".
Proof.
  apply (merged_name_is_last_spelling [resultA; resultB] "rice" riceA riceB
           [riceA; riceB]);
    [simpl; lia | reflexivity | simpl; lia | reflexivity | reflexivity].
Defined.

(** ** Totals and confidence *)



(** ** Totals and the order of arrival *)

(** Addition of doubles commutes. *)
Lemma float_add_comm (x y : float) : PrimFloat.add x y = PrimFloat.add y x.
Proof.
  apply Prim2SF_inj. rewrite !FloatAxioms.add_spec.
  destruct (Prim2SF x) as [sx|sx| |sx mx ex], (Prim2SF y) as [sy|sy| |sy my ey];
    simpl; try reflexivity; try (destruct sx, sy; reflexivity).
  unfold SF64add, SFadd. rewrite (Z.min_comm ex ey), Z.add_comm. reflexivity.
Qed.

(** C1, as the code has it. The totals of two or more lists are the same
    under a permutation of the lists when no key is reported more than
    twice in all and the keys are first reported in the same order. *)
Theorem totals_order_independent_up_to_two_reports :
  forall results results' : list (ProviderResult.t float),
    (2 <= length results)%nat ->
    results ≡ₚ results' ->
    (forall k, (length (reportsOf k (allItems results)) <= 2)%nat) ->
    firstOccurrences [] (map itemKey (allItems results)) =
    firstOccurrences [] (map itemKey (allItems results')) ->
    Aggregated.totalNutrition (aggregateResults results) =
    Aggregated.totalNutrition (aggregateResults results').
Proof.
  intros results results'. apply totals_of_reordered_lists. exact float_add_comm.
Qed.

Lemma totals_order_independent_up_to_two_reports_witness :
  Aggregated.totalNutrition (aggregateResults [resultA; resultB]) =
  Aggregated.totalNutrition (aggregateResults [resultB; resultA]).
Proof.
  apply (totals_order_independent_up_to_two_reports
           [resultA; resultB] [resultB; resultA]).
  - simpl. lia.
  - apply perm_swap.
  - intros k. unfold reportsOf.
    etrans; [apply length_filter | simpl; lia].
  - reflexivity.
Defined.

(** C1, as stated, fails, in two ways.  One item reported by three lists
    with 100, 200 and 400 calories totals 275 when the lists arrive in
    that order and 200 in the reverse order.  And three lists that share
    no item, with 0.1, 0.2 and 0.3 of carbs, total 0.6000000000000001 of
    carbs in that order and 0.6 in the reverse order. *)
Lemma totals_depend_on_arrival_order :
  (arrival1 ≡ₚ arrival2 /\
   (2 <= length arrival1)%nat /\
   NutritionInfo.calories <$> Aggregated.totalNutrition (aggregateResults arrival1)
     = Some (num 275) /\
   NutritionInfo.calories <$> Aggregated.totalNutrition (aggregateResults arrival2)
     = Some (num 200) /\
   Aggregated.totalNutrition (aggregateResults arrival1) <>
   Aggregated.totalNutrition (aggregateResults arrival2)) /\
  (tray1 ≡ₚ tray2 /\
   (forall k, (length (reportsOf k (allItems tray1)) <= 1)%nat) /\
   NutritionInfo.carbs <$> Aggregated.totalNutrition (aggregateResults tray1)
     = Some ((num 1 / num 10 + num 2 / num 10) + num 3 / num 10)%num /\
   NutritionInfo.carbs <$> Aggregated.totalNutrition (aggregateResults tray2)
     = Some (num 6 / num 10)%num /\
   Aggregated.totalNutrition (aggregateResults tray1) <>
   Aggregated.totalNutrition (aggregateResults tray2)).
Proof.
  assert (H1 : NutritionInfo.calories <$>
               Aggregated.totalNutrition (aggregateResults arrival1) = Some (num 275))
    by (vm_compute; reflexivity).
  assert (H2 : NutritionInfo.calories <$>
               Aggregated.totalNutrition (aggregateResults arrival2) = Some (num 200))
    by (vm_compute; reflexivity).
  assert (T1 : NutritionInfo.carbs <$>
               Aggregated.totalNutrition (aggregateResults tray1)
               = Some ((num 1 / num 10 + num 2 / num 10) + num 3 / num 10)%num)
    by (vm_compute; reflexivity).
  assert (T2 : NutritionInfo.carbs <$>
               Aggregated.totalNutrition (aggregateResults tray2)
               = Some (num 6 / num 10)%num)
    by (vm_compute; reflexivity).
  split.
  - split; [apply (Permutation_rev arrival1)|].
    split; [simpl; lia|]. split; [exact H1|]. split; [exact H2|].
    intros Heq. rewrite Heq, H2 in H1. vm_compute in H1. discriminate H1.
  - split; [apply (Permutation_rev tray1)|].
    split.
    { intros k. unfold reportsOf.
      change (allItems tray1) with [nibble "a" 1; nibble "b" 2; nibble "c" 3].
      rewrite !filter_cons, filter_nil.
      change (itemKey (nibble "a" 1)) with "a".
      change (itemKey (nibble "b" 2)) with "b".
      change (itemKey (nibble "c" 3)) with "c".
      repeat case_decide; simpl; try lia; congruence. }
    split; [exact T1|]. split; [exact T2|].
    intros Heq. rewrite Heq, T2 in T1. vm_compute in T1. discriminate T1.
Qed.

(** ** What counts as a failed provider *)

(** C8, as stated, fails: a provider that answers with an empty item list
    is a success of the call and is handed to the aggregation. *)
Lemma empty_item_list_is_a_success :
  ProviderResult.items emptyPayload = Some [] /\
  outcomeOf (callOpenRouter emptyWorld "img" (providerModel gemini) (providerKey gemini))
    = Return (Some emptyPayload) /\
  validResults [fulfilled (Some emptyPayload)] = [emptyPayload] /\
  successes emptyWorld "img" (aiProviders "key")
    = [emptyPayload; emptyPayload; emptyPayload].
Proof. by rewrite callOpenRouter_outcome. Qed.

Lemma provider_call_succeeds_iff_witness :
  emptyPayload ∈ successes emptyWorld "img" (inlineProviders "key").
Proof.
  apply (provider_call_succeeds_iff emptyWorld "img" (inlineProviders "key")
           gemini emptyPayload).
  - apply list_elem_of_here.
  - reflexivity.
Defined.

(** ** An empty merge *)

(** C2, as stated, fails: two sources with zero items each are aggregated
    into a successful, empty analysis, which the action returns and the
    service hands on. *)
Lemma empty_merge_is_returned :
  aggregateResults [emptyPayload; emptyPayload] =
    {| Aggregated.items := Some [];
       Aggregated.totalNutrition := Some zeroNutrition;
       Aggregated.providersUsed := Some 2%nat;
       Aggregated.confidence := Some high |} /\
  outcomeOf (inlineFoodAnalysisAction emptyWorld "img" "key" "0x0") =
    Return (LitSuccess (aggregateResults [emptyPayload; emptyPayload]) None 0
              "lit-protocol" "1.0.0") /\
  outcomeOf (analyzeFood emptyWorld (mkService (Node true) (Some someWallet)) "img" "key") =
    Return {| items := [];
              totalNutrition := Some zeroNutrition;
              providersUsed := 2;
              confidence := high;
              timestamp := 0;
              network := "lit-protocol";
              signature := None |}.
Proof. done. Qed.

Lemma empty_merge_is_a_success_witness :
  aggregateResults [emptyPayload; emptyPayload] =
    {| Aggregated.items := Some [];
       Aggregated.totalNutrition := Some zeroNutrition;
       Aggregated.providersUsed := Some 2%nat;
       Aggregated.confidence := Some high |}.
Proof.
  apply (empty_merge_is_a_success emptyWorld (inlineProviders "key") "img" "0x0"
           [emptyPayload; emptyPayload]).
  - reflexivity.
  - simpl. lia.
  - repeat constructor.
Defined.

(** ** The fallback *)

Lemma fallback_after_total_failure_witness :
  exists r,
    outcomeOf (analyzeImageTry fallbackOnlyWorld (Some readyService) (Some "key") "img") =
      Return (r, {| metaProvidersUsed := Some 1%nat;
                    metaConfidence := Some low;
                    metaNetwork := Some "centralized-fallback" |}) /\
    network r = "centralized-fallback" /\
    confidence r = low /\
    providersUsed r = 1%nat.
Proof.
  edestruct (fallback_after_total_failure fallbackOnlyWorld readyService
               "img" "key"
               (mkAddMeal true false [] None (mkMetadata None None None)))
    as (_ & Htry & Hnet & Hconf & Hused & _);
    [intros H; discriminate H | reflexivity | reflexivity |].
  eexists. split; [exact Htry|]. split; [exact Hnet|].
  split; [exact Hconf | exact Hused].
Defined.

(** ** A single success *)



(** ** Initialization *)

Lemma analyzeFood_requires_initialize_witness :
  analyzeFood partialWorld newService "img" "key" = ([], Throw notInitialized) /\
  is_Some (wallet (performAll partialWorld newService
                     [OpInitialize None; OpAnalyzeFood "img" "key"])) /\
  wallet (performAll partialWorld newService
            [OpInitialize None; OpAnalyzeFood "img" "key"; OpDisconnect]) = None.
Proof.
  destruct (analyzeFood_requires_initialize partialWorld newService "img" "key")
    as (Hthrow & _ & _ & _ & _ & Hinit & Hdisc); [reflexivity|].
  split; [exact Hthrow|]. split.
  - destruct (Hinit newService None readyService [EvConnect] eq_refl) as [_ Hkeep].
    apply (Hkeep [OpAnalyzeFood "img" "key"]). reflexivity.
  - apply (Hdisc readyService _ [EvDisconnect]). reflexivity.
Defined.

(** ** Further properties of the aggregation *)

Lemma aggregated_items_are_deduplicated_witness :
  exists finalItems,
    Aggregated.items (aggregateResults arrival1) = Some finalItems /\
    NoDup (map itemKey finalItems) /\
    (forall k, k ∈ map itemKey finalItems <->
               exists x, x ∈ allItems arrival1 /\ itemKey x = k) /\
    (length finalItems <= length (allItems arrival1))%nat.
Proof.
  apply (aggregated_items_are_deduplicated arrival1). simpl. lia.
Defined.

Lemma aggregated_items_in_first_seen_order_witness :
  exists finalItems,
    Aggregated.items (aggregateResults [resultA; resultB; report 100]) = Some finalItems /\
    map itemKey finalItems = ["rice"; "bowl"].
Proof.
  apply (aggregated_items_in_first_seen_order [resultA; resultB; report 100]).
  simpl. lia.
Defined.

Lemma distinct_items_are_concatenated_witness :
  Aggregated.items (aggregateResults [resultA; report 100]) = Some [riceA; bowl 100].
Proof.
  apply (distinct_items_are_concatenated [resultA; report 100]).
  - simpl. lia.
  - simpl. apply NoDup_cons. split; [|apply NoDup_singleton].
    rewrite list_elem_of_singleton. discriminate.
Defined.

Lemma results_without_items_are_counted_witness :
  Aggregated.items (aggregateResults [resultA; ProviderResult.mk None None None None]) =
    Some [riceA] /\
  Aggregated.providersUsed (aggregateResults [resultA; ProviderResult.mk None None None None]) =
    Some 2%nat /\
  Aggregated.confidence (aggregateResults [resultA; ProviderResult.mk None None None None]) =
    Some high.
Proof.
  apply (results_without_items_are_counted [resultA; ProviderResult.mk None None None None]).
  simpl. lia.
Defined.

(** ** Further properties of a provider call *)

Lemma stripFences_removes_every_fence_witness :
  stripFences "{ items: [] }" = "{ items: [] }".
Proof.
  destruct (stripFences_removes_every_fence "{ items: [] }") as (_ & Hsame & _).
  apply Hsame. reflexivity.
Defined.

(** ** Further properties of the normalized key *)

Lemma itemKey_ignores_padding_witness :
  itemKey (FoodItem.mk None "  Rice " (num 1) "g" (num 1) (num 1) (num 1) (num 1)
           : FoodItem.t float)
  = itemKey riceA.
Proof.
  apply (itemKey_ignores_padding riceA _ "  " " "); reflexivity.
Defined.

(** ** Further properties of the action and of the service *)

Lemma action_fails_by_value_witness :
  outcomeOf (foodAnalysisAction unsignedWorld "img" "key" "0x0") =
  Return (LitFailure "no key share" 0).
Proof.
  destruct (action_fails_by_value unsignedWorld (aiProviders "key") "img" "0x0")
    as (_ & _ & _ & Hsign).
  apply Hsign; [discriminate | reflexivity].
Defined.

Lemma analyzeFood_errors_are_wrapped_witness :
  (wallet readyService = None /\
   "Failed to analyze food: All AI providers failed" = notInitialized) \/
  (wallet readyService <> None /\
   exists cause,
     "Failed to analyze food: All AI providers failed" =
     "Failed to analyze food: " +:+ cause).
Proof.
  apply (analyzeFood_errors_are_wrapped fallbackOnlyWorld readyService "img" "key").
  reflexivity.
Defined.

Lemma analyzeFood_needs_a_ready_node_witness :
  outcomeOf (analyzeFood partialWorld (mkService NoNode (Some someWallet)) "img" "key") =
  Throw "Failed to analyze food: Lit client not connected".
Proof.
  destruct (analyzeFood_needs_a_ready_node partialWorld
              (mkService NoNode (Some someWallet)) "img" "key") as (_ & _ & H);
    [reflexivity|].
  apply (H someWallet "siwe"); reflexivity.
Defined.

Lemma fallback_errors_are_wrapped_witness :
  exists cause, "Fallback analysis failed: network down" =
                "Fallback analysis failed: " +:+ cause.
Proof.
  apply (fallback_errors_are_wrapped offlineWorld newService "img" "key").
  reflexivity.
Defined.


Lemma initialize_then_use_witness :
  logOf (analyzeFood partialWorld readyService "img" "key") =
  [EvAuthSig; EvExecuteJs;
   EvFetch (providerRequest "img" (mkProvider "google/gemini-2.5-pro" "key"));
   EvFetch (providerRequest "img" (mkProvider "anthropic/claude-3.5-sonnet" "key"))].
Proof.
  destruct (initialize_then_use partialWorld newService None readyService [EvConnect])
    as (_ & _ & Hlog); [reflexivity|].
  apply (Hlog "img" "key" someWallet "siwe"); reflexivity.
Defined.

(** ** Further properties of [analyzeImage] *)

Lemma analyzeImage_without_key_or_service_witness :
  analyzeImage partialWorld blankState (Some readyService) None "img" =
  ({| isCapturing := false;
      isAnalyzing := false;
      foodItems := [];
      error := Some "Failed to analyze image. Please try again.";
      analysisMetadata := mkMetadata None None None |}, []).
Proof.
  apply (analyzeImage_without_key_or_service partialWorld blankState
           (Some readyService) None "img").
  left. reflexivity.
Defined.

Lemma analyzeImage_when_all_fail_witness :
  List.filter isFallbackCall
    (snd (analyzeImage offlineWorld blankState (Some readyService) (Some "key") "img")) =
  [EvFetch (fallbackRequest "img" "key")].
Proof.
  eapply (analyzeImage_when_all_fail offlineWorld blankState readyService "key" "img");
    [intros H; discriminate H | reflexivity | reflexivity].
Defined.

(** ** Properties of the meal editor, the store and the table *)

Lemma removeFoodItem_drops_one_witness :
  removeFoodItem [riceA; riceB] 5 = [riceA; riceB].
Proof.
  destruct (removeFoodItem_drops_one [riceA; riceB] 5) as (_ & _ & _ & H).
  apply H. simpl. lia.
Defined.

Lemma saveMeal_stores_locally_witness :
  exists meal,
    saveMeal acceptingChain 1000 12 [riceA] false (Some readyTableland)
      (Some "cloe_meals_a11ce0_84532_7") (initialStore 0) =
      {| saveError := None;
         saveStore := addMeal (initialStore 0) meal;
         navigated := true;
         insertAttempt := None |} /\
    Meal.items meal = [riceA].
Proof.
  destruct (saveMeal_stores_locally acceptingChain 1000 12 [riceA] false
              (Some readyTableland) (Some "cloe_meals_a11ce0_84532_7") (initialStore 0))
    as (meal & Hsave & _ & Hitems & _); [by left|].
  exists meal. split; [exact Hsave | exact Hitems].
Defined.

Lemma saveMeal_to_table_witness :
  saveStore (saveMeal refusingChain 1999 12 [riceA] true (Some readyTableland)
               (Some "cloe_meals_a11ce0_84532_7") (initialStore 0)) = initialStore 0 /\
  navigated (saveMeal refusingChain 1999 12 [riceA] true (Some readyTableland)
               (Some "cloe_meals_a11ce0_84532_7") (initialStore 0)) = false.
Proof.
  destruct (saveMeal_to_table refusingChain 1999 12 [riceA] readyTableland
              "cloe_meals_a11ce0_84532_7" (initialStore 0))
    as (Hstore & _ & _ & Htable & _); [intros H; discriminate H|].
  split; [exact Hstore|].
  destruct (Htable "cloe_meals_a11ce0_84532_7") as (_ & _ & Hfail);
    [reflexivity | reflexivity | intros H; discriminate H|].
  apply (Hfail "transaction reverted"). reflexivity.
Defined.

Lemma meal_row_round_trip_witness :
  exists back,
    rowToMeal acceptingChain (mealToRow acceptingChain (builtMeal 1999 12 [])) =
      Return back /\
    Meal.timestamp back = 1000%Z.
Proof.
  destruct (meal_row_round_trip acceptingChain (builtMeal 1999 12 []))
    as (back & Hback & _ & _ & _ & _ & _ & Hts & _); [reflexivity|].
  exists back. split; [exact Hback | exact Hts].
Defined.

(** X22. The daily statistics exist exactly when there is a user; they
    count the meals of the day of [now] and no other, and for calories
    and for each macro what remains is the user's target minus what was
    eaten, in every arithmetic.  Over the rationals, moreover, what was
    eaten and what remains add up to the user's target. *)
Theorem getDailyStats_accounts_for_targets :
  (forall (number : Type) (arith : Arith number) startOfDay
          (state : AppState.t number) now,
     (getDailyStats startOfDay state now = None <-> AppState.user state = None) /\
     forall stats,
       getDailyStats startOfDay state now = Some stats ->
       exists user,
         AppState.user state = Some user /\
         Forall (fun meal => startOfDay (Meal.timestamp meal) = startOfDay now)
           (DailyStats.meals stats) /\
         (forall meal,
            meal ∈ AppState.meals state ->
            startOfDay (Meal.timestamp meal) = startOfDay now ->
            meal ∈ DailyStats.meals stats) /\
         DailyStats.remainingCalories stats =
           (User.dailyCalorieTarget user - DailyStats.totalCalories stats)%num /\
         MacroTargets.carbs (DailyStats.remainingMacros stats) =
           (MacroTargets.carbs (User.dailyMacroTargets user)
            - NutritionInfo.carbs (DailyStats.totalMacros stats))%num /\
         MacroTargets.fats (DailyStats.remainingMacros stats) =
           (MacroTargets.fats (User.dailyMacroTargets user)
            - NutritionInfo.fats (DailyStats.totalMacros stats))%num /\
         MacroTargets.proteins (DailyStats.remainingMacros stats) =
           (MacroTargets.proteins (User.dailyMacroTargets user)
            - NutritionInfo.proteins (DailyStats.totalMacros stats))%num) /\
  (forall startOfDay (state : AppState.t Qc) now,
     (getDailyStats startOfDay state now = None <-> AppState.user state = None) /\
     forall stats,
       getDailyStats startOfDay state now = Some stats ->
       exists user,
         AppState.user state = Some user /\
         Forall (fun meal => startOfDay (Meal.timestamp meal) = startOfDay now)
           (DailyStats.meals stats) /\
         (forall meal,
            meal ∈ AppState.meals state ->
            startOfDay (Meal.timestamp meal) = startOfDay now ->
            meal ∈ DailyStats.meals stats) /\
         (DailyStats.totalCalories stats + DailyStats.remainingCalories stats
          = User.dailyCalorieTarget user)%Qc /\
         (NutritionInfo.carbs (DailyStats.totalMacros stats) +
          MacroTargets.carbs (DailyStats.remainingMacros stats)
          = MacroTargets.carbs (User.dailyMacroTargets user))%Qc /\
         (NutritionInfo.fats (DailyStats.totalMacros stats) +
          MacroTargets.fats (DailyStats.remainingMacros stats)
          = MacroTargets.fats (User.dailyMacroTargets user))%Qc /\
         (NutritionInfo.proteins (DailyStats.totalMacros stats) +
          MacroTargets.proteins (DailyStats.remainingMacros stats)
          = MacroTargets.proteins (User.dailyMacroTargets user))%Qc).
Proof.
  split.
  - intros number arith startOfDay state now. apply getDailyStats_shape.
  - intros startOfDay state now.
    destruct (getDailyStats_shape startOfDay state now) as [Hnone Hshape].
    split; [exact Hnone|]. intros stats Hstats.
    destruct (Hshape stats Hstats)
      as (user & Huser & Htoday & Hall & Hc & H1 & H2 & H3).
    exists user. do 3 (split; [done|]).
    rewrite Hc, H1, H2, H3. cbn [jsSub rational]. repeat split; ring.
Qed.

Lemma getDailyStats_accounts_for_targets_witness :
  exists user,
    AppState.user (addMeal (initialStore 0) (lunchOf 1000)) = Some user /\
    User.dailyCalorieTarget user = num 2000.
Proof.
  destruct getDailyStats_accounts_for_targets as [Hshape _].
  destruct (Hshape float binary64 utcDay
              (addMeal (initialStore 0) (lunchOf 1000)) 2000%Z) as [_ H].
  destruct (H _ eq_refl) as (user & Huser & _).
  exists user. split; [exact Huser|]. by injection Huser as <-.
Defined.

Lemma addMeal_updates_daily_stats_witness :
  exists stats',
    getDailyStats utcDay (addMeal (initialStore 0) (lunchOf 1000)) 2000 = Some stats' /\
    DailyStats.meals stats' = [lunchOf 1000].
Proof.
  destruct (addMeal_updates_daily_stats utcDay (initialStore 0) 2000 (lunchOf 1000) _
              eq_refl) as [Htoday _].
  destruct (Htoday eq_refl) as (stats' & user & _ & Hstats & Hmeals & _).
  exists stats'. split; [exact Hstats | exact Hmeals].
Defined.

(** * Over the rationals *)

Example Qc_round_ties_go_up :
  Qc_round (Q2Qc (5 # 2)) = Qc_of_Z 3 /\
  Qc_round (Q2Qc (-5 # 2)) = Qc_of_Z (-2) /\
  Qc_round (Q2Qc (12 # 5)) = Qc_of_Z 2.
Proof. repeat split; by apply Qc_is_canon. Qed.

Lemma Qc_round_nonneg x : (0 <= x)%Qc -> (0 <= Qc_round x)%Qc.
Proof.
  intros Hx.
  assert (H : (0 <= x + Q2Qc (1 # 2))%Qc) by (by apply Qcplus_nonneg_nonneg).
  apply (Qfloor_resp_le 0) in H. unfold Qc_round, Qcle.
  change (inject_Z 0 <= inject_Z (Qfloor (x + Q2Qc (1 # 2))%Qc))%Q.
  rewrite <- Zle_Qle. exact H.
Qed.

Lemma average_nonneg (a b : Qc) : (0 <= a)%Qc -> (0 <= b)%Qc -> (0 <= average a b)%Qc.
Proof.
  intros Ha Hb. unfold average. cbn [jsAdd jsDiv num rational]. unfold Qcdiv.
  apply Qcmult_nonneg_nonneg; [by apply Qcplus_nonneg_nonneg | done].
Qed.

Lemma roundWhole_nonneg (x : Qc) : (0 <= x)%Qc -> (0 <= roundWhole x)%Qc.
Proof. apply Qc_round_nonneg. Qed.

Lemma roundTenth_nonneg (x : Qc) : (0 <= x)%Qc -> (0 <= roundTenth x)%Qc.
Proof.
  intros Hx. unfold roundTenth. cbn [jsMul jsDiv Math_round num rational]. unfold Qcdiv.
  apply Qcmult_nonneg_nonneg; [|done].
  apply Qc_round_nonneg. by apply Qcmult_nonneg_nonneg.
Qed.

Lemma mergeItem_nonneg existing x :
  nonNegativeItem existing -> nonNegativeItem x -> nonNegativeItem (mergeItem existing x).
Proof.
  intros (H1 & H2 & H3 & H4 & H5) (G1 & G2 & G3 & G4 & G5).
  unfold nonNegativeItem, mergeItem.
  cbn [FoodItem.quantity FoodItem.calories FoodItem.carbs FoodItem.fats
       FoodItem.proteins].
  repeat split;
    auto using roundWhole_nonneg, roundTenth_nonneg, average_nonneg.
Qed.

Lemma fold_addItem_nonneg l : forall m,
  Forall (fun kv => nonNegativeItem (snd kv)) m ->
  Forall nonNegativeItem l ->
  Forall (fun kv => nonNegativeItem (snd kv)) (fold_left addItem l m).
Proof.
  induction l as [|x l IH]; intros m Hm Hl; [done|].
  apply Forall_cons in Hl as [Hx Hl]. simpl. apply IH; [|done].
  rewrite addItem_unfold. apply Map_set_Forall; [done|].
  destruct (Map_get m (itemKey x)) as [existing|] eqn:G; [|done].
  apply mergeItem_nonneg; [|done].
  apply Map_get_elem in G. rewrite Forall_forall in Hm. apply (Hm _ G).
Qed.

Lemma sumOf_nonneg (f : FoodItem.t Qc -> Qc) l :
  Forall (fun x => (0 <= f x)%Qc) l -> (0 <= sumOf f l)%Qc.
Proof.
  unfold sumOf. cbn [num jsAdd rational].
  assert (H : forall acc, (0 <= acc)%Qc ->
            Forall (fun x => (0 <= f x)%Qc) l ->
            (0 <= fold_left (fun acc x => acc + f x) l acc)%Qc).
  { induction l as [|x l IH]; intros acc Hacc Hl; [done|].
    apply Forall_cons in Hl as [Hx Hl]. simpl.
    apply IH; [by apply Qcplus_nonneg_nonneg | done]. }
  by apply H.
Qed.

(** X5. Over the rationals the aggregation keeps the invariant of the
    data: when no reported quantity or measure is negative, none is
    negative in the final items, nor in the totals. *)
Theorem aggregation_keeps_measures_non_negative :
  forall results,
    length results <> 1%nat ->
    Forall nonNegativeItem (allItems results) ->
    exists finalItems totals,
      Aggregated.items (aggregateResults results) = Some finalItems /\
      Forall nonNegativeItem finalItems /\
      Aggregated.totalNutrition (aggregateResults results) = Some totals /\
      nonNegativeTotals totals.
Proof.
  intros results Hlen Hall. rewrite aggregateResults_multi by done.
  eexists _, _. split; [reflexivity|].
  assert (Hfinal : Forall nonNegativeItem (Map_values (mergeAll results))).
  { unfold Map_values. rewrite Forall_map, mergeAll_flat.
    apply fold_addItem_nonneg; [constructor | done]. }
  split; [exact Hfinal|]. split; [reflexivity|].
  rewrite totalsOf_sums.
  repeat split; simpl; apply sumOf_nonneg;
    (eapply Forall_impl; [exact Hfinal|]); by intros x (? & ? & ? & ? & ?).
Qed.

Lemma aggregation_keeps_measures_non_negative_witness :
  exists finalItems totals,
    Aggregated.items (aggregateResults [exactReport 150 200; exactReport 170 220])
      = Some finalItems /\
    Forall nonNegativeItem finalItems /\
    Aggregated.totalNutrition (aggregateResults [exactReport 150 200; exactReport 170 220])
      = Some totals /\
    nonNegativeTotals totals.
Proof.
  apply (aggregation_keeps_measures_non_negative
           [exactReport 150 200; exactReport 170 220]).
  - simpl. lia.
  - repeat constructor; simpl; discriminate.
Defined.
